(** * rvi-jeeves: configuration resolution and basic publish

    A shallow embedding of [jeeves.py], the cron-driven script that reads a
    service profile from a configuration file and places one message on a
    RabbitMQ queue, together with the properties of its specification.

    Layout of the development:
    - Python values, exceptions and the two monads the script lives in
      ([result] for pure code that may raise, [IO] for code that also talks
      to the broker or to the terminal);
    - the interfaces of the libraries the script calls ([ConfigParser],
      [pika], [ast], [json], [os]);
    - the functions of [jeeves.py], one definition per source function;
    - a small executable model of the library functions, used to run the
      script on concrete profiles;
    - the properties. *)

From Stdlib Require Import ZArith List Ascii String.
From stdpp Require Import base strings gmap list pretty.

Set Warnings "-register-all".
Local Open Scope string_scope.
Local Open Scope Z_scope.

(* ===================================================================== *)
(** ** Python values and exceptions *)
(* ===================================================================== *)

(** The values the script manipulates: what [ast.literal_eval] can return
    and what the [connection_info] dictionary holds.  A dictionary literal
    is kept as the association list of its items. *)
Inductive value : Type :=
| VNone
| VBool (b : bool)
| VInt (n : Z)
| VStr (s : string)
| VTuple (items : list value)
| VList (items : list value)
| VDict (items : list (value * value)).

(** The exceptions that can travel through the script.  Exceptions raised
    by a library carry no message; [SystemExit] carries its argument, as
    the script chooses it. *)
Inductive exn : Type :=
| NoSectionError
| NoOptionError
| InterpolationError
| ParsingError
| IOError
| ValueError
| SyntaxError
| TypeError
| AMQPError
| SystemExit (code : value).

Inductive result (A : Type) : Type :=
| Return (a : A)
| Raise (e : exn).
Arguments Return {A} a.
Arguments Raise {A} e.

#[global] Instance result_ret : MRet result := fun A a => Return a.
#[global] Instance result_bind : MBind result := fun A B f m =>
  match m with
  | Return a => f a
  | Raise e => Raise e
  end.

#[global] Instance result_fmap : FMap result := fun A B f m =>
  match m with
  | Return a => Return (f a)
  | Raise e => Raise e
  end.

(** [try: body / except ConfigParser.NoOptionError: handler]: only the one
    exception class is caught, every other one propagates. *)
Definition try_except_NoOptionError {A} (body handler : result A) : result A :=
  match body with
  | Raise NoOptionError => handler
  | r => r
  end.

(** [type(v) is dict] *)
Definition type_is_dict (v : value) : bool :=
  match v with
  | VDict _ => true
  | _ => false
  end.

(* ===================================================================== *)
(** ** Library interfaces *)
(* ===================================================================== *)

(** A [ConfigParser.ConfigParser] instance after [readfp], seen through the
    one method the script calls: [get(section, option)] returns the text of
    the option or raises.  An absent option is [NoOptionError], an absent
    section [NoSectionError]. *)
Record ConfigParser : Type := { get : string -> string -> result string }.

(** A [dict] with string keys; [d.get(k)] answers [None] for a missing key. *)
Definition dict_get (d : gmap string value) (k : string) : value :=
  default VNone (d !! k).

(** *** [int(str)]

    Base-ten conversion of a byte string: surrounding white space is
    skipped, one sign is allowed, and at least one decimal digit must
    follow and nothing else. *)
Definition is_space (c : ascii) : bool :=
  let n := nat_of_ascii c in
  ((n =? 32) || ((9 <=? n) && (n <=? 13)))%nat.

Definition digit_of (c : ascii) : option Z :=
  let n := Z.of_nat (nat_of_ascii c) in
  if (48 <=? n) && (n <=? 57) then Some (n - 48) else None.

Fixpoint lstrip (s : string) : string :=
  match s with
  | String c s' => if is_space c then lstrip s' else s
  | EmptyString => EmptyString
  end.

(** Reads the digits of [s] onto the accumulator; trailing white space may
    close the number. *)
Fixpoint digits_from (acc : Z) (s : string) : option Z :=
  match s with
  | EmptyString => Some acc
  | String c s' =>
      match digit_of c with
      | Some d => digits_from (10 * acc + d) s'
      | None => if is_space c
                then match lstrip s' with EmptyString => Some acc | _ => None end
                else None
      end
  end.

Definition unsigned_from (s : string) : option Z :=
  match s with
  | String c _ => match digit_of c with
                  | Some _ => digits_from 0 s
                  | None => None
                  end
  | EmptyString => None
  end.

Definition int (s : string) : result Z :=
  let body :=
    match lstrip s with
    | String "-" s' => Z.opp <$> unsigned_from s'
    | String "+" s' => unsigned_from s'
    | s' => unsigned_from s'
    end in
  match body with
  | Some n => Return n
  | None => Raise ValueError
  end.

Arguments int : simpl never.

(** *** The broker, as [pika] shows it

    The script makes at most four calls, each at most once: it builds a
    [BlockingConnection], asks it for a channel, publishes on the channel
    and closes the connection.  A [Broker] fixes how each call ends:
    [None] when it returns, [Some e] when it raises [e]. *)
Record Broker : Type := {
  on_connect : value -> value -> value -> value -> value -> option exn;
  on_channel : option exn;
  on_basic_publish : string -> value -> value -> option exn;
  on_close : option exn
}.

(** What a run does to the outside, in the order it does it. *)
Inductive event : Type :=
| BlockingConnection (host virtual_host username password port : value)
| Channel
| BasicPublish (exchange : string) (routing_key body : value)
| Close
| Print (line : string).

(** Handles of the two [pika] objects of a run. *)
Inductive connection : Type := TheConnection.
Inductive channel : Type := TheChannel.

(** Code with effects: it extends the trace of events and returns or
    raises; the trace survives an exception. *)
Definition IO (A : Type) : Type := list event -> result A * list event.

Definition io_ret {A} (a : A) : IO A := fun tr => (Return a, tr).
Definition io_raise {A} (e : exn) : IO A := fun tr => (Raise e, tr).
Definition io_bind {A B} (m : IO A) (f : A -> IO B) : IO B := fun tr =>
  match m tr with
  | (Return a, tr') => f a tr'
  | (Raise e, tr') => (Raise e, tr')
  end.
Definition lift {A} (r : result A) : IO A := fun tr => (r, tr).

(** One call into the outside world: the call is recorded, then it ends
    the way the outside decides. *)
Definition call {A} (ev : event) (answer : option exn) (a : A) : IO A := fun tr =>
  (match answer with None => Return a | Some e => Raise e end, (tr ++ [ev])%list).

#[global] Instance io_mret : MRet IO := @io_ret.
#[global] Instance io_mbind : MBind IO := fun A B f m => io_bind m f.

(** Command line arguments, as [argparse] hands them over. *)
Record Args : Type := {
  service : string;
  configfile : option string;
  basic : bool
}.

(* ===================================================================== *)
(** ** An executable model of the libraries *)
(* ===================================================================== *)

(** The properties below are stated for any [ast.literal_eval],
    [json.dumps], configuration and broker.  To run the script on concrete
    profiles this module gives executable stand-ins for them, each for a
    documented fragment of what the library accepts. *)
Module PyModel.

Definition ord (c : ascii) : Z := Z.of_nat (nat_of_ascii c).

(** The double quote character. *)
Definition dquote : ascii := "034"%char.

(** *** Configuration files

    A parsed file is a map from section names to the options of the
    section.  The model has no [DEFAULT] section and no [%(name)s]
    interpolation. *)
Definition config_of (sections : gmap string (gmap string string)) : ConfigParser :=
  {| get section option :=
       match sections !! section with
       | None => Raise NoSectionError
       | Some options =>
           match options !! option with
           | None => Raise NoOptionError
           | Some v => Return v
           end
       end |}.

(** [open] and [readfp] on a file system given as a map from paths to
    parsed files; a missing path is an [IOError]. *)
Definition open_readfp (files : gmap string (gmap string (gmap string string)))
  (path : string) : result ConfigParser :=
  match files !! path with
  | Some sections => Return (config_of sections)
  | None => Raise IOError
  end.

(** *** [ast.literal_eval]

    The fragment of Python literals that is parsed:
    - a string in single or double quotes, made of printable ASCII
      characters other than the backslash and its own quote;
    - a decimal integer without sign: [0], or digits not starting with 0;
    - [True], [False], [None];
    - a list [[v, ...]] of such values, without a trailing comma;
    - a dictionary [{k: v, ...}] whose keys are strings, without a
      trailing comma; a repeated key keeps its last value.
    Blanks may surround the items of a list or a dictionary.  Every other
    string is answered with [SyntaxError]; Python accepts more literals
    than these (floats, tuples, escapes, ...), so only the positive answers
    of the model, and its answer on text that is no expression at all,
    speak for Python. *)
Definition is_ident (c : ascii) : bool :=
  let n := ord c in
  ((48 <=? n) && (n <=? 57)) || ((65 <=? n) && (n <=? 90))
  || ((97 <=? n) && (n <=? 122)) || (n =? 95).

Definition is_plain (quote c : ascii) : bool :=
  let n := ord c in
  (32 <=? n) && (n <=? 126) && negb (n =? 92) && negb (n =? ord quote).

Fixpoint skip_blanks (s : string) : string :=
  match s with
  | String " " s' => skip_blanks s'
  | _ => s
  end.

(** The characters up to the closing [quote]. *)
Fixpoint parse_quoted (quote : ascii) (s : string) : option (string * string) :=
  match s with
  | EmptyString => None
  | String c s' =>
      if (ord c =? ord quote)%Z then Some (EmptyString, s')
      else if is_plain quote c
           then '(body, rest) ← parse_quoted quote s'; Some (String c body, rest)
           else None
  end.

(** The longest prefix of identifier characters. *)
Fixpoint parse_word (s : string) : string * string :=
  match s with
  | String c s' =>
      if is_ident c
      then let '(w, rest) := parse_word s' in (String c w, rest)
      else (EmptyString, s)
  | EmptyString => (EmptyString, EmptyString)
  end.

Fixpoint decimal (acc : Z) (w : string) : option Z :=
  match w with
  | EmptyString => Some acc
  | String c w' => d ← digit_of c; decimal (10 * acc + d) w'
  end.

Definition word_value (w : string) : option value :=
  match w with
  | "True" => Some (VBool true)
  | "False" => Some (VBool false)
  | "None" => Some VNone
  | "0" => Some (VInt 0)
  | String c _ =>
      if (49 <=? ord c) && (ord c <=? 57) then VInt <$> decimal 0 w else None
  | EmptyString => None
  end.

(** Storing [k: v] into the items of a dictionary. *)
Fixpoint dict_store (k : string) (v : value) (items : list (value * value))
  : list (value * value) :=
  match items with
  | [] => [(VStr k, v)]
  | (VStr k', v') :: items' =>
      if String.eqb k k' then (VStr k', v) :: items'
      else (VStr k', v') :: dict_store k v items'
  | item :: items' => item :: dict_store k v items'
  end.

(** The items of a list after the first one, up to the closing bracket;
    [n] bounds the number of items. *)
Fixpoint parse_items (pv : string -> option (value * string)) (n : nat)
  (acc : list value) (s : string) : option (list value * string) :=
  match n with
  | O => None
  | S n' =>
      match skip_blanks s with
      | String "]" rest => Some (acc, rest)
      | String "," rest =>
          '(v, rest') ← pv (skip_blanks rest);
          parse_items pv n' (acc ++ [v])%list rest'
      | _ => None
      end
  end.

(** One [key: value] pair of a dictionary. *)
Definition parse_pair (pv : string -> option (value * string)) (s : string)
  : option (string * value * string) :=
  match s with
  | String q rest =>
      if (ord q =? 39) || (ord q =? ord dquote) then
        '(k, rest) ← parse_quoted q rest;
        match skip_blanks rest with
        | String ":" rest =>
            '(v, rest) ← pv (skip_blanks rest); Some (k, v, rest)
        | _ => None
        end
      else None
  | EmptyString => None
  end.

(** The pairs of a dictionary after the first one, up to the closing
    brace. *)
Fixpoint parse_pairs (pv : string -> option (value * string)) (n : nat)
  (acc : list (value * value)) (s : string) : option (list (value * value) * string) :=
  match n with
  | O => None
  | S n' =>
      match skip_blanks s with
      | String "}" rest => Some (acc, rest)
      | String "," rest =>
          '(k, v, rest') ← parse_pair pv (skip_blanks rest);
          parse_pairs pv n' (dict_store k v acc) rest'
      | _ => None
      end
  end.

(** One value at the head of [s]; [fuel] bounds the nesting depth. *)
Fixpoint parse_value (fuel : nat) (s : string) : option (value * string) :=
  match fuel with
  | O => None
  | S fuel' =>
      let pv := parse_value fuel' in
      match s with
      | EmptyString => None
      | String c rest =>
          if (ord c =? 39) || (ord c =? ord dquote) then
            '(body, rest') ← parse_quoted c rest; Some (VStr body, rest')
          else if (ord c =? 91) then
            match skip_blanks rest with
            | String "]" rest' => Some (VList [], rest')
            | rest' =>
                '(v, rest'') ← pv rest';
                '(vs, rest''') ← parse_items pv (String.length rest'') [v] rest'';
                Some (VList vs, rest''')
            end
          else if (ord c =? 123) then
            match skip_blanks rest with
            | String "}" rest' => Some (VDict [], rest')
            | rest' =>
                '(k, v, rest'') ← parse_pair pv rest';
                '(kvs, rest''') ← parse_pairs pv (String.length rest'') [(VStr k, v)] rest'';
                Some (VDict kvs, rest''')
            end
          else
            let '(w, rest') := parse_word s in
            v ← word_value w; Some (v, rest')
      end
  end.

Definition literal_eval (s : string) : result value :=
  match parse_value (S (String.length s)) s with
  | Some (v, EmptyString) => Return v
  | _ => Raise SyntaxError
  end.

(** *** [json.dumps]

    With the default separators.  A string is written between double
    quotes with the escapes of [ensure_ascii]; a byte above 127 is outside
    the model and answered as an undecodable byte ([UnicodeDecodeError], a
    [ValueError]).  The pairs of a dictionary are written in the order of
    its items; CPython 2 writes them in the order of its hash table, which
    for two keys or more the model does not fix.  A key must be a string,
    a number, a boolean or [None]. *)
Definition hex_digit (n : Z) : ascii :=
  ascii_of_nat (Z.to_nat (if n <? 10 then 48 + n else 87 + n)).

Definition json_char (c : ascii) : option string :=
  let n := ord c in
  if n =? 34 then Some ("\" +:+ String dquote EmptyString)
  else if n =? 92 then Some "\\"
  else if n =? 10 then Some "\n"
  else if n =? 13 then Some "\r"
  else if n =? 9 then Some "\t"
  else if n =? 12 then Some "\f"
  else if n =? 8 then Some "\b"
  else if (32 <=? n) && (n <=? 126) then Some (String c EmptyString)
  else if n <=? 127
       then Some ("\u00" +:+ String (hex_digit (n / 16)) (String (hex_digit (n mod 16)) EmptyString))
       else None.

Fixpoint json_chars (s : string) : option string :=
  match s with
  | EmptyString => Some EmptyString
  | String c s' => e ← json_char c; es ← json_chars s'; Some (e +:+ es)
  end.

Definition json_string (s : string) : result string :=
  match json_chars s with
  | Some body => Return (String dquote body +:+ String dquote EmptyString)
  | None => Raise ValueError
  end.

(** [", ".join(parts)] *)
Fixpoint join (parts : list string) : string :=
  match parts with
  | [] => EmptyString
  | [p] => p
  | p :: ps => p +:+ ", " +:+ join ps
  end.

Definition quoted (s : string) : string :=
  String dquote s +:+ String dquote EmptyString.

Definition json_key (k : value) : result string :=
  match k with
  | VStr s => json_string s
  | VInt n => Return (quoted (pretty n))
  | VBool true => Return (quoted "true")
  | VBool false => Return (quoted "false")
  | VNone => Return (quoted "null")
  | _ => Raise TypeError
  end.

Fixpoint json_dumps (v : value) : result string :=
  match v with
  | VNone => Return "null"
  | VBool true => Return "true"
  | VBool false => Return "false"
  | VInt n => Return (pretty n)
  | VStr s => json_string s
  | VTuple items | VList items =>
      parts ← (fix each (l : list value) : result (list string) :=
                 match l with
                 | [] => Return []
                 | x :: l' => p ← json_dumps x; ps ← each l'; Return (p :: ps)
                 end) items;
      Return ("[" +:+ join parts +:+ "]")
  | VDict items =>
      parts ← (fix each (l : list (value * value)) : result (list string) :=
                 match l with
                 | [] => Return []
                 | (k, x) :: l' =>
                     pk ← json_key k; px ← json_dumps x; ps ← each l';
                     Return ((pk +:+ ": " +:+ px) :: ps)
                 end) items;
      Return ("{" +:+ join parts +:+ "}")
  end.

(** A broker on which every call returns. *)
Definition willing : Broker :=
  {| on_connect _ _ _ _ _ := None;
     on_channel := None;
     on_basic_publish _ _ _ := None;
     on_close := None |}.

(** No environment variable is set. *)
Definition no_env (name : string) : option string := None.

End PyModel.

(* ===================================================================== *)
(** ** Sample profiles *)
(* ===================================================================== *)

Module Samples.

Definition conf_path : string := "/home/automation/staging/rvi-jeeves.conf".

(** [rvi-jeeves -f ... -s vConsuela -b] and the same without [-b]. *)
Definition args_basic : Args :=
  {| service := "vConsuela"; configfile := Some conf_path; basic := true |}.
Definition args_plain : Args :=
  {| service := "vConsuela"; configfile := Some conf_path; basic := false |}.

(** A configuration file with the one section [[vConsuela]]. *)
Definition file_of (options : gmap string string)
  : gmap string (gmap string (gmap string string)) :=
  {[ conf_path := {[ "vConsuela" := options ]} ]}.

Definition jobs : gmap string string :=
  {[ "rabbit_queue" := "jobs"; "rabbit_message_body" := "{'task': 'sync'}" ]}.

(** The JSON text of [{'task': 'sync'}]. *)
Definition task_sync_json : string :=
  "{" +:+ PyModel.quoted "task" +:+ ": " +:+ PyModel.quoted "sync" +:+ "}".

Definition only_body (body : string) : gmap string string :=
  {[ "rabbit_message_body" := body ]}.

Definition with_port (port : string) : gmap string string :=
  {[ "rabbit_port" := port; "rabbit_message_body" := "'ping'" ]}.

Definition no_body : gmap string string :=
  {[ "rabbit_host" := "bus.example.org"; "rabbit_queue" := "jobs" ]}.

Definition empty_queue : gmap string string :=
  {[ "rabbit_queue" := ""; "rabbit_host" := " bus "; "rabbit_message_body" := "'ping'" ]}.

(** The section [[vConsuela]] of a file holding [options]. *)
Definition profile (options : gmap string string) : ConfigParser :=
  PyModel.config_of {[ "vConsuela" := options ]}.

End Samples.

(* ===================================================================== *)
(** ** The script *)
(* ===================================================================== *)

Definition get_connection_info (config_inst : ConfigParser) (service_name : string)
  : result (gmap string value) :=
  let connection_info : gmap string value := ∅ in
  host ← try_except_NoOptionError
            (get config_inst service_name "rabbit_host")
            (Return "localhost");
  let connection_info := <["rabbit_host" := VStr host]> connection_info in
  user ← try_except_NoOptionError
            (get config_inst service_name "rabbit_user")
            (Return "guest");
  let connection_info := <["rabbit_user" := VStr user]> connection_info in
  passwd ← try_except_NoOptionError
              (get config_inst service_name "rabbit_pass")
              (Return "guest");
  let connection_info := <["rabbit_pass" := VStr passwd]> connection_info in
  vhost ← try_except_NoOptionError
             (get config_inst service_name "rabbit_vhost")
             (Return "/");
  let connection_info := <["rabbit_vhost" := VStr vhost]> connection_info in
  connection_info ← try_except_NoOptionError
      (port ← (get config_inst service_name "rabbit_port" ≫= int);
       Return (<["rabbit_port" := VInt port]> connection_info))
      (Return (<["rabbit_port" := VInt 5672]> connection_info));
  (* if any of these arent set we cant set a default *)
  connection_info ← try_except_NoOptionError
      (queue ← get config_inst service_name "rabbit_queue";
       Return (<["rabbit_queue" := VStr queue]> connection_info))
      (Return (<["rabbit_queue" := VNone]> connection_info));
  connection_info ← try_except_NoOptionError
      (exchange ← get config_inst service_name "rabbit_exchange";
       Return (<["rabbit_exchange" := VStr exchange]> connection_info))
      (Return (<["rabbit_exchange" := VNone]> connection_info));
  connection_info ← try_except_NoOptionError
      (routing_key ← get config_inst service_name "rabbit_routing_key";
       Return (<["rabbit_routing_key" := VStr routing_key]> connection_info))
      (Return (<["rabbit_routing_key" := VNone]> connection_info));
  connection_info ← try_except_NoOptionError
      (body ← get config_inst service_name "rabbit_message_body";
       Return (<["rabbit_message_body" := VStr body]> connection_info))
      (Raise (SystemExit
         (VStr "rabbit_message_body parameter missing from config and is required.")));
  Return connection_info.

(** The rest of the script talks to the libraries; they are the variables
    of this section.
    - [literal_eval] is [ast.literal_eval] on a string;
    - [json_dumps] is [json.dumps];
    - [pika] is the broker behind the [pika] calls;
    - [getenv] is [os.getenv];
    - [open_readfp] is [open] followed by [ConfigParser.readfp]. *)
Section Script.

Variable literal_eval : string -> result value.
Variable json_dumps : value -> result string.
Variable pika : Broker.
Variable getenv : string -> option string.
Variable open_readfp : string -> result ConfigParser.

(** [ast.literal_eval(node_or_string)]: only a string is parsed, any other
    argument is not a literal node. *)
Definition ast_literal_eval (node_or_string : value) : result value :=
  match node_or_string with
  | VStr s => literal_eval s
  | _ => Raise ValueError
  end.

(** [str(os.getenv(name))] *)
Definition str_getenv (name : string) : string :=
  match getenv name with
  | Some v => v
  | None => "None"
  end.

(** [print line] *)
Definition print (line : string) : IO unit := call (Print line) None tt.

(** [try: body / except IOError: handler] *)
Definition try_except_IOError {A} (body handler : IO A) : IO A := fun tr =>
  match body tr with
  | (Raise IOError, tr') => handler tr'
  | r => r
  end.

Definition connect_to_bus (rabbit_connection_info : gmap string value) : IO connection :=
  let rabbit_host := dict_get rabbit_connection_info "rabbit_host" in
  let rabbit_user := dict_get rabbit_connection_info "rabbit_user" in
  let rabbit_pass := dict_get rabbit_connection_info "rabbit_pass" in
  let rabbit_vhost := dict_get rabbit_connection_info "rabbit_vhost" in
  let rabbit_port := dict_get rabbit_connection_info "rabbit_port" in
  call (BlockingConnection rabbit_host rabbit_vhost rabbit_user rabbit_pass rabbit_port)
       (on_connect pika rabbit_host rabbit_vhost rabbit_user rabbit_pass rabbit_port)
       TheConnection.

Definition get_channel (conn : connection) : IO channel :=
  call Channel (on_channel pika) TheChannel.

(** [connection.close()] *)
Definition close (conn : connection) : IO unit :=
  call Close (on_close pika) tt.

Definition publish_basic (chan : channel) (connection_info : gmap string value) : IO unit :=
  msg_body ← lift (ast_literal_eval (dict_get connection_info "rabbit_message_body"));
  msg_body ← (if type_is_dict msg_body
              then lift (VStr <$> json_dumps msg_body)
              else mret msg_body);
  let routing_key := dict_get connection_info "rabbit_queue" in
  call (BasicPublish "" routing_key msg_body)
       (on_basic_publish pika "" routing_key msg_body)
       tt.

(** The path of the configuration file: [-f] when it is given and not
    empty, else [$PCOPS_PRIV/rvi-jeeves.conf]. *)
Definition CONF_FILE (args : Args) : string :=
  let CONF_FILE := str_getenv "PCOPS_PRIV" +:+ "/" +:+ "rvi-jeeves.conf" in
  match configfile args with
  | Some (String c f) => String c f
  | _ => CONF_FILE
  end.

(** The body of [if __name__ == "__main__"], after [parse_args]. *)
Definition main (args : Args) : IO unit :=
  config ← try_except_IOError
      (lift (open_readfp (CONF_FILE args)))
      (print "Config file missing.";;
       io_raise (SystemExit (VStr ("Please create " +:+ CONF_FILE args +:+ " "))));
  let service := service args in
  connection_info ← lift (get_connection_info config service);
  rabbit_connection ← connect_to_bus connection_info;
  rabbit_channel ← get_channel rabbit_connection;
  if basic args then
    publish_basic rabbit_channel connection_info;;
    close rabbit_connection;;
    io_raise (SystemExit VNone)
  else
    mret tt.

(** The message that [publish_basic] hands to the channel: the value of
    the literal, or its JSON text when the value is a dictionary. *)
Definition msg_body_of (connection_info : gmap string value) : result value :=
  msg_body ← ast_literal_eval (dict_get connection_info "rabbit_message_body");
  if type_is_dict msg_body then VStr <$> json_dumps msg_body else Return msg_body.

(* ===================================================================== *)
(** ** Reading a trace *)
(* ===================================================================== *)

Definition is_connect (ev : event) : bool :=
  match ev with BlockingConnection _ _ _ _ _ => true | _ => false end.
Definition is_publish (ev : event) : bool :=
  match ev with BasicPublish _ _ _ => true | _ => false end.
Definition is_close (ev : event) : bool :=
  match ev with Close => true | _ => false end.
Definition is_transport (ev : event) : bool :=
  match ev with Print _ => false | _ => true end.

(** How many events of a trace satisfy [p]. *)
Definition count (p : event -> bool) (tr : list event) : nat :=
  length (List.filter p tr).

(* ===================================================================== *)
(** ** What resolution computes *)
(* ===================================================================== *)

(** The options with a text value and what stands for each when it is
    absent. *)
Definition text_options : list (string * value) :=
  [ ("rabbit_host", VStr "localhost");
    ("rabbit_user", VStr "guest");
    ("rabbit_pass", VStr "guest");
    ("rabbit_vhost", VStr "/");
    ("rabbit_queue", VNone);
    ("rabbit_exchange", VNone);
    ("rabbit_routing_key", VNone) ].

(** All the options that may be left out of a profile. *)
Definition optional_keys : list string :=
  (text_options.*1 ++ ["rabbit_port"])%list.

(** A lookup that resolution can deal with: the option is there or it is
    reported absent. *)
Definition lookup_ok (config_inst : ConfigParser) (service_name k : string) : Prop :=
  get config_inst service_name k = Raise NoOptionError
  \/ exists v, get config_inst service_name k = Return v.

Definition port_ok (config_inst : ConfigParser) (service_name : string) : Prop :=
  get config_inst service_name "rabbit_port" = Raise NoOptionError
  \/ exists v n, get config_inst service_name "rabbit_port" = Return v /\ int v = Return n.

(** The value a text option resolves to. *)
Definition text_of (r : result string) (absent : value) : value :=
  match r with
  | Return v => VStr v
  | Raise _ => absent
  end.

(** The value the port resolves to. *)
Definition port_of (r : result string) : value :=
  match r with
  | Return v => match int v with Return n => VInt n | Raise _ => VNone end
  | Raise _ => VInt 5672
  end.

(** The dictionary of a profile that resolves. *)
Definition resolved (config_inst : ConfigParser) (service_name : string)
  : gmap string value :=
  let opt k absent := text_of (get config_inst service_name k) absent in
  <["rabbit_message_body" := opt "rabbit_message_body" VNone]>
  (<["rabbit_routing_key" := opt "rabbit_routing_key" VNone]>
  (<["rabbit_exchange" := opt "rabbit_exchange" VNone]>
  (<["rabbit_queue" := opt "rabbit_queue" VNone]>
  (<["rabbit_port" := port_of (get config_inst service_name "rabbit_port")]>
  (<["rabbit_vhost" := opt "rabbit_vhost" (VStr "/")]>
  (<["rabbit_pass" := opt "rabbit_pass" (VStr "guest")]>
  (<["rabbit_user" := opt "rabbit_user" (VStr "guest")]>
  (<["rabbit_host" := opt "rabbit_host" (VStr "localhost")]> ∅)))))))).

(** The profile with nothing but a message body. *)
Definition default_profile (body : string) : gmap string value :=
  {[ "rabbit_host" := VStr "localhost";
     "rabbit_user" := VStr "guest";
     "rabbit_pass" := VStr "guest";
     "rabbit_vhost" := VStr "/";
     "rabbit_port" := VInt 5672;
     "rabbit_queue" := VNone;
     "rabbit_exchange" := VNone;
     "rabbit_routing_key" := VNone;
     "rabbit_message_body" := VStr body ]}.

(** The nine options resolution looks up, in the order of the lookups. *)
Definition profile_keys : list string :=
  [ "rabbit_host"; "rabbit_user"; "rabbit_pass"; "rabbit_vhost"; "rabbit_port";
    "rabbit_queue"; "rabbit_exchange"; "rabbit_routing_key"; "rabbit_message_body" ].

(** The options a run goes on to use: the five of the connection, the
    queue and the body. *)
Definition used_keys : list string :=
  [ "rabbit_host"; "rabbit_user"; "rabbit_pass"; "rabbit_vhost"; "rabbit_port";
    "rabbit_queue"; "rabbit_message_body" ].

(** A profile whose optional lookups resolution can all deal with. *)
Definition options_ok (config_inst : ConfigParser) (service_name : string) : Prop :=
  Forall (fun kd => lookup_ok config_inst service_name kd.1) text_options
  /\ port_ok config_inst service_name.

(** The events of [connect_to_bus] and the answer of the broker to it. *)
Definition connect_event (d : gmap string value) : event :=
  BlockingConnection (dict_get d "rabbit_host") (dict_get d "rabbit_vhost")
    (dict_get d "rabbit_user") (dict_get d "rabbit_pass") (dict_get d "rabbit_port").

Definition connect_answer (d : gmap string value) : option exn :=
  on_connect pika (dict_get d "rabbit_host") (dict_get d "rabbit_vhost")
    (dict_get d "rabbit_user") (dict_get d "rabbit_pass") (dict_get d "rabbit_port").

(** The resolved part of a run: connection, channel and, in basic mode,
    publish and close. *)
Definition session (args : Args) (d : gmap string value) : IO unit :=
  rabbit_connection ← connect_to_bus d;
  rabbit_channel ← get_channel rabbit_connection;
  if basic args then
    publish_basic rabbit_channel d;;
    close rabbit_connection;;
    io_raise (SystemExit VNone)
  else
    mret tt.

(* ===================================================================== *)
(** ** Resolution: helper lemmas *)
(* ===================================================================== *)

Lemma try_default_inv (r : result string) (dflt host : string) :
  try_except_NoOptionError r (Return dflt) = Return host ->
  (r = Raise NoOptionError \/ exists v, r = Return v)
  /\ VStr host = text_of r (VStr dflt).
Proof.
  destruct r as [v|[]]; simpl; intros H; try discriminate;
    injection H as <-; split; eauto.
Qed.

Lemma try_unset_inv (r : result string) (k : string) (ci ci' : gmap string value) :
  try_except_NoOptionError
    (x ← r; Return (<[k := VStr x]> ci)) (Return (<[k := VNone]> ci)) = Return ci' ->
  (r = Raise NoOptionError \/ exists v, r = Return v)
  /\ ci' = <[k := text_of r VNone]> ci.
Proof.
  destruct r as [v|[]]; simpl; intros H; try discriminate;
    injection H as <-; split; eauto.
Qed.

Lemma int_raises (s : string) (e : exn) : int s = Raise e -> e = ValueError.
Proof.
  unfold int. destruct (match lstrip s with EmptyString => _ | String _ _ => _ end);
    congruence.
Qed.

Lemma try_port_inv (r : result string) (ci ci' : gmap string value) :
  try_except_NoOptionError
    (port ← (r ≫= int); Return (<["rabbit_port" := VInt port]> ci))
    (Return (<["rabbit_port" := VInt 5672]> ci)) = Return ci' ->
  (r = Raise NoOptionError \/ exists v n, r = Return v /\ int v = Return n)
  /\ ci' = <["rabbit_port" := port_of r]> ci.
Proof.
  unfold port_of. destruct r as [v|[]]; simpl; try discriminate.
  - destruct (int v) as [n|e] eqn:E; simpl;
      [|apply int_raises in E; subst e; discriminate].
    intros H; injection H as <-. split; eauto.
  - intros H; injection H as <-. split; eauto.
Qed.

Lemma bind_Return_inv {A B} (m : result A) (f : A -> result B) (b : B) :
  m ≫= f = Return b -> exists a, m = Return a /\ f a = Return b.
Proof. destruct m as [a|e]; simpl; [eauto | discriminate]. Qed.

(** When resolution returns, every optional lookup was a value or an
    absence, the body was there, and the dictionary is [resolved]. *)
Lemma get_connection_info_sound (config_inst : ConfigParser) (service_name : string)
  (d : gmap string value) :
  get_connection_info config_inst service_name = Return d ->
  options_ok config_inst service_name
  /\ (exists body, get config_inst service_name "rabbit_message_body" = Return body)
  /\ d = resolved config_inst service_name.
Proof.
  unfold get_connection_info. intros H.
  apply bind_Return_inv in H as (host & Hhost & H).
  apply bind_Return_inv in H as (user & Huser & H).
  apply bind_Return_inv in H as (passwd & Hpass & H).
  apply bind_Return_inv in H as (vhost & Hvhost & H).
  apply bind_Return_inv in H as (ci5 & Hport & H).
  apply bind_Return_inv in H as (ci6 & Hqueue & H).
  apply bind_Return_inv in H as (ci7 & Hexch & H).
  apply bind_Return_inv in H as (ci8 & Hrk & H).
  apply bind_Return_inv in H as (ci9 & Hbody & H).
  injection H as <-.
  apply try_default_inv in Hhost as [Hhost Eh].
  apply try_default_inv in Huser as [Huser Eu].
  apply try_default_inv in Hpass as [Hpass Ep].
  apply try_default_inv in Hvhost as [Hvhost Ev].
  rewrite Eh, Eu, Ep, Ev in Hport.
  apply try_port_inv in Hport as [Hport ->].
  apply try_unset_inv in Hqueue as [Hqueue ->].
  apply try_unset_inv in Hexch as [Hexch ->].
  apply try_unset_inv in Hrk as [Hrk ->].
  destruct (get config_inst service_name "rabbit_message_body") as [body|e] eqn:Eb;
    [|destruct e; discriminate].
  simpl in Hbody. injection Hbody as <-.
  split; [|split].
  - split; [|exact Hport].
    unfold text_options, lookup_ok.
    repeat (apply List.Forall_cons; [simpl; assumption|]). apply List.Forall_nil.
  - eauto.
  - unfold resolved. rewrite Eb. reflexivity.
Qed.

Lemma try_default_ok (r : result string) (dflt : string) :
  (r = Raise NoOptionError \/ exists v, r = Return v) ->
  exists host, try_except_NoOptionError r (Return dflt) = Return host
               /\ VStr host = text_of r (VStr dflt).
Proof. intros [->|[v ->]]; simpl; eauto. Qed.

Lemma try_unset_ok (r : result string) (k : string) (ci : gmap string value) :
  (r = Raise NoOptionError \/ exists v, r = Return v) ->
  try_except_NoOptionError
    (x ← r; Return (<[k := VStr x]> ci)) (Return (<[k := VNone]> ci))
  = Return (<[k := text_of r VNone]> ci).
Proof. intros [->|[v ->]]; reflexivity. Qed.

Lemma try_port_ok (r : result string) (ci : gmap string value) :
  (r = Raise NoOptionError \/ exists v n, r = Return v /\ int v = Return n) ->
  try_except_NoOptionError
    (port ← (r ≫= int); Return (<["rabbit_port" := VInt port]> ci))
    (Return (<["rabbit_port" := VInt 5672]> ci))
  = Return (<["rabbit_port" := port_of r]> ci).
Proof.
  intros [->|(v & n & -> & E)]; [reflexivity|].
  unfold port_of. simpl. rewrite E. reflexivity.
Qed.

(** With optional lookups of that kind, resolution is decided by the
    lookup of the body. *)
Lemma get_connection_info_options_ok (config_inst : ConfigParser) (service_name : string) :
  options_ok config_inst service_name ->
  get_connection_info config_inst service_name =
  match get config_inst service_name "rabbit_message_body" with
  | Return _ => Return (resolved config_inst service_name)
  | Raise NoOptionError =>
      Raise (SystemExit
        (VStr "rabbit_message_body parameter missing from config and is required."))
  | Raise e => Raise e
  end.
Proof.
  intros [Htext Hport].
  unfold text_options in Htext.
  repeat match goal with
         | H : Forall _ (_ :: _) |- _ => apply Forall_cons_1 in H as [? H]
         end.
  unfold lookup_ok in *; simpl in *.
  unfold get_connection_info.
  destruct (try_default_ok _ "localhost" H) as (host & -> & Eh).
  destruct (try_default_ok _ "guest" H0) as (user & -> & Eu).
  destruct (try_default_ok _ "guest" H1) as (passwd & -> & Ep).
  destruct (try_default_ok _ "/" H2) as (vhost & -> & Ev).
  cbn [mbind result_bind]. rewrite Eh, Eu, Ep, Ev.
  rewrite (try_port_ok _ _ Hport). cbn [mbind result_bind].
  rewrite (try_unset_ok _ _ _ H3). cbn [mbind result_bind].
  rewrite (try_unset_ok _ _ _ H4). cbn [mbind result_bind].
  rewrite (try_unset_ok _ _ _ H5). cbn [mbind result_bind].
  unfold resolved.
  destruct (get config_inst service_name "rabbit_message_body") as [body|[]];
    reflexivity.
Qed.

(** Conversely to [get_connection_info_sound], such a profile resolves. *)
Lemma get_connection_info_complete (config_inst : ConfigParser) (service_name body : string) :
  options_ok config_inst service_name ->
  get config_inst service_name "rabbit_message_body" = Return body ->
  get_connection_info config_inst service_name = Return (resolved config_inst service_name).
Proof.
  intros Hok Hbody. rewrite (get_connection_info_options_ok _ _ Hok), Hbody.
  reflexivity.
Qed.

(** What [resolved] holds, key by key. *)
Lemma resolved_text (config_inst : ConfigParser) (service_name k : string) (absent : value) :
  In (k, absent) text_options ->
  resolved config_inst service_name !! k
  = Some (text_of (get config_inst service_name k) absent).
Proof.
  unfold text_options. simpl.
  intros H; repeat destruct H as [H|H]; try (injection H as <- <-; reflexivity).
  destruct H.
Qed.

Lemma resolved_port (config_inst : ConfigParser) (service_name : string) :
  resolved config_inst service_name !! "rabbit_port"
  = Some (port_of (get config_inst service_name "rabbit_port")).
Proof. reflexivity. Qed.

Lemma resolved_body (config_inst : ConfigParser) (service_name : string) :
  resolved config_inst service_name !! "rabbit_message_body"
  = Some (text_of (get config_inst service_name "rabbit_message_body") VNone).
Proof. reflexivity. Qed.

(* ===================================================================== *)
(** ** Runs: helper lemmas *)
(* ===================================================================== *)

Ltac unfold_run :=
  unfold main, publish_basic, close, get_channel, connect_to_bus, print,
    try_except_IOError, call, lift, io_raise, connect_event, connect_answer in *;
  unfold mbind, mret, io_mbind, io_mret, io_bind, io_ret in *.

Lemma publish_basic_eq (chan : channel) (ci : gmap string value) (tr : list event) :
  publish_basic chan ci tr =
  match msg_body_of ci with
  | Return b =>
      call (BasicPublish "" (dict_get ci "rabbit_queue") b)
           (on_basic_publish pika "" (dict_get ci "rabbit_queue") b) tt tr
  | Raise e => (Raise e, tr)
  end.
Proof.
  unfold msg_body_of. unfold_run.
  destruct (ast_literal_eval (dict_get ci "rabbit_message_body")) as [v|e];
    [|reflexivity].
  unfold result_bind. destruct (type_is_dict v); [|reflexivity].
  destruct (json_dumps v) as [j|e]; reflexivity.
Qed.

(** A run whose profile does not resolve ends there, with no event. *)
Lemma main_unresolved (args : Args) (cfg : ConfigParser) (e : exn) (tr : list event) :
  open_readfp (CONF_FILE args) = Return cfg ->
  get_connection_info cfg (service args) = Raise e ->
  main args tr = (Raise e, tr).
Proof. intros Hc Hr. unfold_run. rewrite Hc, Hr. reflexivity. Qed.

Lemma main_resolved (args : Args) (cfg : ConfigParser) (d : gmap string value)
  (tr : list event) :
  open_readfp (CONF_FILE args) = Return cfg ->
  get_connection_info cfg (service args) = Return d ->
  main args tr = session args d tr.
Proof. intros Hc Hr. unfold session. unfold_run. rewrite Hc, Hr. reflexivity. Qed.

(** Every run is of one of three kinds. *)
Lemma main_cases (args : Args) (tr : list event) :
  (exists e tr', main args tr = (Raise e, tr') /\ Forall (fun ev => is_transport ev = false \/ In ev tr) tr')
  \/ (exists cfg e, open_readfp (CONF_FILE args) = Return cfg
         /\ get_connection_info cfg (service args) = Raise e
         /\ main args tr = (Raise e, tr))
  \/ (exists cfg d, open_readfp (CONF_FILE args) = Return cfg
         /\ get_connection_info cfg (service args) = Return d
         /\ main args tr = session args d tr).
Proof.
  destruct (open_readfp (CONF_FILE args)) as [cfg|e] eqn:Hc.
  - destruct (get_connection_info cfg (service args)) as [d|e] eqn:Hr.
    + right; right. exists cfg, d. eauto using main_resolved.
    + right; left. exists cfg, e. eauto using main_unresolved.
  - left. unfold_run. rewrite Hc.
    destruct e; eexists _, _; (split; [reflexivity|]).
    all: try (apply Forall_forall; intros ev Hev; right; apply list_elem_of_In; exact Hev).
    apply Forall_forall. intros ev Hev. apply list_elem_of_In in Hev.
    apply in_app_or in Hev as [Hev|[<-|[]]]; [right; exact Hev | left; reflexivity].
Qed.

(** The seven ways a resolved run can go, on the empty trace. *)
Lemma session_eq (args : Args) (d : gmap string value) :
  session args d [] =
  let opened := [connect_event d; Channel] in
  match connect_answer d with
  | Some e => (Raise e, [connect_event d])
  | None =>
    match on_channel pika with
    | Some e => (Raise e, opened)
    | None =>
      if basic args then
        match msg_body_of d with
        | Raise e => (Raise e, opened)
        | Return b =>
          let published := (opened ++ [BasicPublish "" (dict_get d "rabbit_queue") b])%list in
          match on_basic_publish pika "" (dict_get d "rabbit_queue") b with
          | Some e => (Raise e, published)
          | None =>
            match on_close pika with
            | Some e => (Raise e, (published ++ [Close])%list)
            | None => (Raise (SystemExit VNone), (published ++ [Close])%list)
            end
          end
        end
      else (Return tt, opened)
    end
  end.
Proof.
  unfold session, mbind, io_mbind, io_bind.
  unfold connect_to_bus at 1. fold (connect_event d) (connect_answer d).
  unfold call at 1. destruct (connect_answer d); [reflexivity|].
  unfold get_channel, call at 1. destruct (on_channel pika); [reflexivity|].
  destruct (basic args); [|reflexivity].
  rewrite publish_basic_eq. destruct (msg_body_of d) as [b|e]; [|reflexivity].
  unfold call at 1.
  destruct (on_basic_publish pika "" (dict_get d "rabbit_queue") b); [reflexivity|].
  unfold close, call, io_raise. destruct (on_close pika); reflexivity.
Qed.

(* ===================================================================== *)
(** ** Properties of resolution *)
(* ===================================================================== *)

(** C4.  A profile in which every optional key is absent and only
    [rabbit_message_body] is present resolves, and resolves to exactly
    host [localhost], user [guest], password [guest], virtual host [/],
    port [5672], and [None] (the unset marker) for queue, exchange and
    routing key, next to the body as it was written. *)
Theorem defaults_resolved (config_inst : ConfigParser) (service_name body : string) :
  Forall (fun k => get config_inst service_name k = Raise NoOptionError) optional_keys ->
  get config_inst service_name "rabbit_message_body" = Return body ->
  get_connection_info config_inst service_name = Return (default_profile body).
Proof.
  intros Habs Hbody.
  unfold optional_keys, text_options in Habs. simpl in Habs.
  repeat match goal with
         | H : Forall _ (_ :: _) |- _ => apply Forall_cons_1 in H as [? H]
         end.
  rewrite (get_connection_info_complete _ _ body); [|split|assumption].
  - f_equal. unfold resolved, text_of, port_of.
    repeat match goal with H : get _ _ _ = _ |- _ => rewrite H; clear H end.
    reflexivity.
  - unfold text_options, lookup_ok.
    repeat (apply List.Forall_cons; [left; simpl; assumption|]). apply List.Forall_nil.
  - left; assumption.
Qed.

(** C5.  A profile without the [rabbit_message_body] key does not resolve:
    resolution raises, the run ends with that exception at once, and its
    trace stays empty, so neither a connection nor a publish is attempted.
    When the optional lookups are all values or absences the exception is
    the [SystemExit] of the script, with its message. *)
Theorem missing_body_is_fatal (args : Args) (cfg : ConfigParser) :
  open_readfp (CONF_FILE args) = Return cfg ->
  get cfg (service args) "rabbit_message_body" = Raise NoOptionError ->
  (exists e, get_connection_info cfg (service args) = Raise e
             /\ main args [] = (Raise e, []))
  /\ (options_ok cfg (service args) ->
      get_connection_info cfg (service args) =
      Raise (SystemExit
        (VStr "rabbit_message_body parameter missing from config and is required."))).
Proof.
  intros Hc Hbody. split.
  - destruct (get_connection_info cfg (service args)) as [d|e] eqn:Hr.
    + apply get_connection_info_sound in Hr as (_ & [body Hb] & _). congruence.
    + exists e. split; [reflexivity|]. exact (main_unresolved _ _ _ _ Hc Hr).
  - intros Hok. rewrite (get_connection_info_options_ok _ _ Hok), Hbody.
    reflexivity.
Qed.

(** C6.  When [rabbit_port] is present and [int] rejects its text, the
    profile does not resolve: resolution raises instead of putting the
    default port in.  When the four lookups made before the port are
    values or absences, the exception is the [ValueError] of [int]. *)
Theorem bad_port_is_error (config_inst : ConfigParser) (service_name v : string) :
  get config_inst service_name "rabbit_port" = Return v ->
  int v = Raise ValueError ->
  (exists e, get_connection_info config_inst service_name = Raise e)
  /\ (Forall (lookup_ok config_inst service_name)
        ["rabbit_host"; "rabbit_user"; "rabbit_pass"; "rabbit_vhost"] ->
      get_connection_info config_inst service_name = Raise ValueError).
Proof.
  intros Hport Hint. split.
  - destruct (get_connection_info config_inst service_name) as [d|e] eqn:Hr; [|eauto].
    apply get_connection_info_sound in Hr as ([_ [Hp|(v' & n & Hp & Hn)]] & _).
    + congruence.
    + rewrite Hport in Hp. injection Hp as <-. congruence.
  - intros Hfour.
    repeat match goal with
           | H : Forall _ (_ :: _) |- _ => apply Forall_cons_1 in H as [? H]
           end.
    unfold lookup_ok in *. unfold get_connection_info.
    destruct (try_default_ok _ "localhost" H) as (host & -> & _).
    destruct (try_default_ok _ "guest" H0) as (user & -> & _).
    destruct (try_default_ok _ "guest" H1) as (passwd & -> & _).
    destruct (try_default_ok _ "/" H2) as (vhost & -> & _).
    cbn [mbind result_bind]. rewrite Hport. cbn [mbind result_bind].
    rewrite Hint. reflexivity.
Qed.

(** C9, amended.  In a profile whose optional lookups are values or
    absences and whose body is present, resolution returns, and for each
    of the seven text options (host, user, password, virtual host, queue,
    exchange, routing key) a present value is stored as it is -- the empty
    string and surrounding blanks included -- while only an absent key
    gets the default or [None].  The port is different: it is stored as
    the integer [int] reads from its text. *)
Theorem text_options_verbatim (config_inst : ConfigParser) (service_name body : string) :
  options_ok config_inst service_name ->
  get config_inst service_name "rabbit_message_body" = Return body ->
  exists d, get_connection_info config_inst service_name = Return d
    /\ (forall k absent, In (k, absent) text_options ->
          (forall v, get config_inst service_name k = Return v -> d !! k = Some (VStr v))
          /\ (get config_inst service_name k = Raise NoOptionError -> d !! k = Some absent))
    /\ (forall v, get config_inst service_name "rabbit_port" = Return v ->
          exists n, int v = Return n /\ d !! "rabbit_port" = Some (VInt n)).
Proof.
  intros Hok Hbody. exists (resolved config_inst service_name).
  split; [exact (get_connection_info_complete _ _ _ Hok Hbody)|]. split.
  - intros k absent Hin. rewrite (resolved_text _ _ _ _ Hin).
    split; [intros v ->|intros ->]; reflexivity.
  - intros v Hv. rewrite resolved_port, Hv.
    destruct Hok as [_ [Hp|(v' & n & Hp & Hn)]]; [congruence|].
    rewrite Hv in Hp. injection Hp as <-. exists n. unfold port_of. rewrite Hn. eauto.
Qed.

(* ===================================================================== *)
(** ** Properties of runs *)
(* ===================================================================== *)

(** The body of a resolved profile is the text of the configuration. *)
Lemma resolved_body_text (cfg : ConfigParser) (service_name raw : string)
  (d : gmap string value) :
  get_connection_info cfg service_name = Return d ->
  get cfg service_name "rabbit_message_body" = Return raw ->
  dict_get d "rabbit_message_body" = VStr raw.
Proof.
  intros Hr Hb. apply get_connection_info_sound in Hr as (_ & _ & ->).
  unfold dict_get. rewrite resolved_body, Hb. reflexivity.
Qed.

(** C3, amended.  [publish_basic] evaluates the body literal and makes one
    publish call, to the default exchange with [rabbit_queue] as routing
    key.  When the literal is a dictionary the body of the call is its
    JSON text; in every other case the body is the value of the literal
    itself, handed over as it is: for a string literal that is its content
    without the quotes, for a number, a boolean, [None] or a sequence it is
    that value and not a text made from it. *)
Theorem publish_basic_body (chan : channel) (ci : gmap string value)
  (raw : string) (v : value) (tr : list event) :
  ci !! "rabbit_message_body" = Some (VStr raw) ->
  literal_eval raw = Return v ->
  (forall j, type_is_dict v = true -> json_dumps v = Return j ->
     publish_basic chan ci tr =
     call (BasicPublish "" (dict_get ci "rabbit_queue") (VStr j))
          (on_basic_publish pika "" (dict_get ci "rabbit_queue") (VStr j)) tt tr)
  /\ (type_is_dict v = false ->
      publish_basic chan ci tr =
      call (BasicPublish "" (dict_get ci "rabbit_queue") v)
           (on_basic_publish pika "" (dict_get ci "rabbit_queue") v) tt tr).
Proof.
  intros Hraw Hv.
  assert (Hm : msg_body_of ci
               = if type_is_dict v then VStr <$> json_dumps v else Return v).
  { unfold msg_body_of, dict_get. rewrite Hraw. simpl. rewrite Hv. reflexivity. }
  split.
  - intros j Hd Hj. rewrite publish_basic_eq, Hm, Hd, Hj. reflexivity.
  - intros Hd. rewrite publish_basic_eq, Hm, Hd. reflexivity.
Qed.

(** C10.  A run without [-b] never publishes and never closes; and when
    its profile resolves and the broker accepts the connection and the
    channel, it returns normally after exactly those two calls. *)
Theorem no_basic_flag_no_publish (args : Args) :
  basic args = false ->
  (forall out tr, main args [] = (out, tr) ->
     count is_publish tr = 0%nat /\ count is_close tr = 0%nat)
  /\ (forall cfg d,
       open_readfp (CONF_FILE args) = Return cfg ->
       get_connection_info cfg (service args) = Return d ->
       connect_answer d = None ->
       on_channel pika = None ->
       main args [] = (Return tt, [connect_event d; Channel])).
Proof.
  intros Hb. split.
  - intros out tr.
    destruct (main_cases args []) as
      [(e & tr' & -> & Hall)|[(cfg & e & _ & _ & ->)|(cfg & d & _ & _ & ->)]].
    + intros [= <- <-]. clear e.
      induction Hall as [|ev tr' [Hev|[]] _ IH]; [split; reflexivity|].
      destruct ev; try discriminate. exact IH.
    + intros [= <- <-]. split; reflexivity.
    + rewrite session_eq, Hb. unfold connect_event; cbv zeta.
      destruct (connect_answer d); [|destruct (on_channel pika)];
        intros [= <- <-]; split; reflexivity.
  - intros cfg d Hc Hr Hconn Hchan.
    rewrite (main_resolved _ _ _ _ Hc Hr), session_eq, Hconn, Hchan, Hb.
    reflexivity.
Qed.

(** C1, amended.  In a basic-publish run whose profile resolves and whose
    body [literal_eval] rejects, nothing is published and nothing is
    closed, and the run ends with an exception; but the script evaluates
    the body only inside [publish_basic], so the connection has been
    attempted before, exactly once.  When the broker accepts the
    connection and the channel, the exception of the run is the one
    [literal_eval] raised and the trace is those two calls. *)
Theorem malformed_body_fails_after_connect (args : Args) (cfg : ConfigParser)
  (d : gmap string value) (raw : string) (e : exn) :
  basic args = true ->
  open_readfp (CONF_FILE args) = Return cfg ->
  get_connection_info cfg (service args) = Return d ->
  get cfg (service args) "rabbit_message_body" = Return raw ->
  literal_eval raw = Raise e ->
  (forall out tr, main args [] = (out, tr) ->
     count is_connect tr = 1%nat /\ count is_publish tr = 0%nat
     /\ count is_close tr = 0%nat /\ exists e', out = Raise e')
  /\ (connect_answer d = None -> on_channel pika = None ->
      main args [] = (Raise e, [connect_event d; Channel])).
Proof.
  intros Hb Hc Hr Hraw He.
  assert (Hm : msg_body_of d = Raise e).
  { unfold msg_body_of. rewrite (resolved_body_text _ _ _ _ Hr Hraw). simpl.
    rewrite He. reflexivity. }
  rewrite (main_resolved _ _ _ _ Hc Hr), session_eq, Hb, Hm.
  unfold connect_event; cbv zeta. split.
  - intros out tr.
    destruct (connect_answer d); [|destruct (on_channel pika)];
      intros [= <- <-]; repeat split; eauto.
  - intros -> ->. reflexivity.
Qed.

(** C2, amended.  A profile without [rabbit_queue] resolves all the same,
    with [None] under that key, and no error is raised for it.  In
    basic-publish mode the connection is then attempted, and a publish
    call of the run can only carry [None] as its routing key; it is made
    as soon as the broker accepts the connection and the channel and the
    body evaluates. *)
Theorem missing_queue_publishes_unset_key (args : Args) (cfg : ConfigParser)
  (d : gmap string value) :
  basic args = true ->
  open_readfp (CONF_FILE args) = Return cfg ->
  get cfg (service args) "rabbit_queue" = Raise NoOptionError ->
  get_connection_info cfg (service args) = Return d ->
  d !! "rabbit_queue" = Some VNone
  /\ (forall out tr, main args [] = (out, tr) ->
       count is_connect tr = 1%nat
       /\ forall exchange routing_key body,
            In (BasicPublish exchange routing_key body) tr -> routing_key = VNone)
  /\ (forall b, connect_answer d = None -> on_channel pika = None ->
       msg_body_of d = Return b ->
       In (BasicPublish "" VNone b) (main args []).2).
Proof.
  intros Hb Hc Hq Hr.
  assert (Hd : d !! "rabbit_queue" = Some VNone).
  { pose proof Hr as Hs. apply get_connection_info_sound in Hs as (_ & _ & ->).
    rewrite (resolved_text _ _ "rabbit_queue" VNone), Hq; [reflexivity|].
    unfold text_options; simpl; tauto. }
  assert (Hk : dict_get d "rabbit_queue" = VNone).
  { unfold dict_get. rewrite Hd. reflexivity. }
  rewrite (main_resolved _ _ _ _ Hc Hr), session_eq, Hb, Hk.
  unfold connect_event; cbv zeta. split; [exact Hd|split].
  - intros out tr.
    destruct (connect_answer d); [|destruct (on_channel pika);
      [|destruct (msg_body_of d) as [b|e];
        [destruct (on_basic_publish pika "" VNone b); [|destruct (on_close pika)]|]]];
      intros [= <- <-]; (split; [reflexivity|]);
      intros exchange routing_key body Hin; simpl in Hin;
      repeat destruct Hin as [Hin|Hin]; try discriminate; try (destruct Hin; fail);
      injection Hin as _ <- _; reflexivity.
  - intros b -> -> ->.
    destruct (on_basic_publish pika "" VNone b); [|destruct (on_close pika)];
      simpl; tauto.
Qed.

(** C7.  The profile with [rabbit_queue = jobs] and
    [rabbit_message_body = {'task': 'sync'}] and no other key, run with
    [-b] against a broker that accepts its calls: the run opens the
    connection to [localhost:5672] as [guest], opens a channel, makes one
    publish call with the empty exchange, the routing key [jobs] and the
    JSON text of the dictionary as body, closes the connection and exits:
    one connection, one publish, one close. *)
Theorem jobs_scenario (args : Args) (cfg : ConfigParser) :
  basic args = true ->
  open_readfp (CONF_FILE args) = Return cfg ->
  get cfg (service args) "rabbit_queue" = Return "jobs" ->
  get cfg (service args) "rabbit_message_body" = Return "{'task': 'sync'}" ->
  Forall (fun k => get cfg (service args) k = Raise NoOptionError)
    ["rabbit_host"; "rabbit_user"; "rabbit_pass"; "rabbit_vhost"; "rabbit_port";
     "rabbit_exchange"; "rabbit_routing_key"] ->
  literal_eval "{'task': 'sync'}" = Return (VDict [(VStr "task", VStr "sync")]) ->
  json_dumps (VDict [(VStr "task", VStr "sync")]) = Return Samples.task_sync_json ->
  on_connect pika (VStr "localhost") (VStr "/") (VStr "guest") (VStr "guest") (VInt 5672)
    = None ->
  on_channel pika = None ->
  on_basic_publish pika "" (VStr "jobs") (VStr Samples.task_sync_json) = None ->
  on_close pika = None ->
  let tr := [BlockingConnection (VStr "localhost") (VStr "/") (VStr "guest") (VStr "guest")
               (VInt 5672);
             Channel;
             BasicPublish "" (VStr "jobs") (VStr Samples.task_sync_json);
             Close] in
  main args [] = (Raise (SystemExit VNone), tr)
  /\ count is_connect tr = 1%nat /\ count is_publish tr = 1%nat
  /\ count is_close tr = 1%nat.
Proof.
  intros Hb Hc Hq Hbody Habs Hlit Hjson Hconn Hchan Hpub Hclose tr.
  repeat match goal with
         | H : Forall _ (_ :: _) |- _ => apply Forall_cons_1 in H as [? H]
         end.
  assert (Hr : get_connection_info cfg (service args) = Return (resolved cfg (service args))).
  { apply (get_connection_info_complete cfg (service args) "{'task': 'sync'}");
      [|assumption].
    split; [|left; assumption].
    unfold text_options, lookup_ok.
    repeat (apply List.Forall_cons; [simpl; eauto|]). apply List.Forall_nil. }
  split; [|repeat split].
  rewrite (main_resolved _ _ _ _ Hc Hr), session_eq, Hb.
  unfold connect_event, connect_answer, msg_body_of, dict_get.
  rewrite resolved_body, resolved_port,
    (resolved_text _ _ "rabbit_queue" VNone),
    (resolved_text _ _ "rabbit_host" (VStr "localhost")),
    (resolved_text _ _ "rabbit_user" (VStr "guest")),
    (resolved_text _ _ "rabbit_pass" (VStr "guest")),
    (resolved_text _ _ "rabbit_vhost" (VStr "/"))
    by (unfold text_options; simpl; tauto).
  repeat match goal with H : get _ _ _ = _ |- _ => rewrite H; clear H end.
  simpl. rewrite Hconn, Hchan, Hlit. simpl. rewrite Hjson. simpl.
  rewrite Hpub, Hclose. reflexivity.
Qed.

(** C8, amended.  The script closes the connection in one place only,
    after the publish call of basic-publish mode: in the trace of any run
    there is a close exactly when the run is in basic-publish mode and its
    publish call returned.  On every other path -- no [-b], a body that
    does not evaluate or serialize, a channel or a publish call that
    raises -- a connection that was opened is left as it is. *)
Theorem close_iff_published (args : Args) (out : result unit) (tr : list event) :
  main args [] = (out, tr) ->
  In Close tr <->
  basic args = true
  /\ exists routing_key body,
       In (BasicPublish "" routing_key body) tr
       /\ on_basic_publish pika "" routing_key body = None.
Proof.
  destruct (main_cases args []) as
    [(e & tr' & -> & Hall)|[(cfg & e & _ & _ & ->)|(cfg & d & _ & _ & ->)]].
  - intros [= <- <-].
    assert (Hno : forall ev, In ev tr' -> is_transport ev = false).
    { intros ev Hin. rewrite Forall_forall in Hall.
      destruct (Hall ev) as [H|[]]; [apply list_elem_of_In; exact Hin|exact H]. }
    split.
    + intros H. apply Hno in H. discriminate.
    + intros (_ & rk & b & H & _). apply Hno in H. discriminate.
  - intros [= <- <-]. split; [intros []|intros (_ & rk & b & [] & _)].
  - rewrite session_eq. unfold connect_event; cbv zeta.
    destruct (connect_answer d); [|destruct (on_channel pika);
      [|destruct (basic args);
        [destruct (msg_body_of d) as [b|e];
         [destruct (on_basic_publish pika "" (dict_get d "rabbit_queue") b) eqn:Hp;
          [|destruct (on_close pika)]|]|]]];
      intros [= <- <-]; simpl.
  all: split.
  all: try (intros (Hb & rk & b' & Hin & Hans); try discriminate Hb;
          repeat destruct Hin as [Hin|Hin]; try discriminate; try (destruct Hin; fail);
          try tauto; injection Hin as <- <-; congruence).
  all: intros H; repeat destruct H as [H|H]; try discriminate; try (destruct H; fail).
  all: (split; [reflexivity|]); eexists _, _; (split; [|exact Hp]); tauto.
Qed.

(* ===================================================================== *)
(** ** Further properties of resolution *)
(* ===================================================================== *)

(** Membership in one of the lists of keys. *)
Ltac in_keys :=
  unfold text_options, profile_keys, used_keys; simpl;
  repeat (first [left; reflexivity | right]).

(** X1.  Resolution returns exactly for the profiles whose optional
    lookups are values or absences, whose port, when present, [int] can
    read, and whose body is present; and what it returns is [resolved]. *)
Theorem resolution_returns_iff (config_inst : ConfigParser) (service_name : string)
  (d : gmap string value) :
  get_connection_info config_inst service_name = Return d <->
  options_ok config_inst service_name
  /\ (exists body, get config_inst service_name "rabbit_message_body" = Return body)
  /\ d = resolved config_inst service_name.
Proof.
  split.
  - apply get_connection_info_sound.
  - intros (Hok & [body Hbody] & ->).
    exact (get_connection_info_complete _ _ _ Hok Hbody).
Qed.

(** X2.  An exception of a lookup other than [NoOptionError] is never
    swallowed: if any of the nine lookups raises one, resolution raises;
    and when it is the first lookup, as for a section that does not exist,
    resolution raises that very exception. *)
Theorem foreign_lookup_error_propagates (config_inst : ConfigParser)
  (service_name k : string) (e : exn) :
  In k profile_keys ->
  get config_inst service_name k = Raise e ->
  e <> NoOptionError ->
  (exists e', get_connection_info config_inst service_name = Raise e')
  /\ (k = "rabbit_host" -> get_connection_info config_inst service_name = Raise e).
Proof.
  intros Hk He Hne. split.
  - destruct (get_connection_info config_inst service_name) as [d|e'] eqn:Hr; [|eauto].
    exfalso.
    apply get_connection_info_sound in Hr as ([Htext Hport] & [body Hbody] & _).
    assert (Hok : lookup_ok config_inst service_name k).
    { unfold profile_keys in Hk. simpl in Hk.
      unfold text_options in Htext.
      repeat match goal with
             | H : Forall _ (_ :: _) |- _ => apply Forall_cons_1 in H as [? H]
             end.
      simpl in *.
      repeat destruct Hk as [Hk|Hk]; try subst k; try assumption; try (destruct Hk; fail).
      - destruct Hport as [Hp|(v & n & Hp & _)]; [left|right]; eauto.
      - right; eauto. }
    destruct Hok as [Hok|[v Hok]]; congruence.
  - intros ->. unfold get_connection_info. rewrite He.
    destruct e; try reflexivity. contradiction.
Qed.

(** X3.  A dictionary that resolution returns is complete: it has the nine
    keys and no other, the host, user, password and virtual host are
    strings, the port is an integer and the body is a string. *)
Theorem resolved_profile_complete (config_inst : ConfigParser) (service_name : string)
  (d : gmap string value) :
  get_connection_info config_inst service_name = Return d ->
  dom d = list_to_set profile_keys
  /\ exists host user passwd vhost port body,
       d !! "rabbit_host" = Some (VStr host)
       /\ d !! "rabbit_user" = Some (VStr user)
       /\ d !! "rabbit_pass" = Some (VStr passwd)
       /\ d !! "rabbit_vhost" = Some (VStr vhost)
       /\ d !! "rabbit_port" = Some (VInt port)
       /\ d !! "rabbit_message_body" = Some (VStr body).
Proof.
  intros Hr.
  apply get_connection_info_sound in Hr as ([Htext Hport] & [body Hbody] & ->).
  split.
  - unfold resolved, profile_keys. vm_compute. reflexivity.
  - unfold text_options in Htext.
    repeat match goal with
           | H : Forall _ (_ :: _) |- _ => apply Forall_cons_1 in H as [? H]
           end.
    unfold lookup_ok in *; cbn [fst] in *.
    assert (Htxt : forall r dflt, (r = Raise NoOptionError \/ exists v, r = Return v) ->
                     exists x, text_of r (VStr dflt) = VStr x).
    { intros r dflt [->|[v ->]]; simpl; eauto. }
    destruct (Htxt _ "localhost" H) as [host Hh].
    destruct (Htxt _ "guest" H0) as [user Hu].
    destruct (Htxt _ "guest" H1) as [passwd Hp].
    destruct (Htxt _ "/" H2) as [vhost Hv].
    assert (exists n, port_of (get config_inst service_name "rabbit_port") = VInt n)
      as [port Hn].
    { unfold port_of. destruct Hport as [->|(v & n & -> & ->)]; eauto. }
    exists host, user, passwd, vhost, port, body.
    rewrite resolved_port, resolved_body, Hbody, Hn.
    rewrite (resolved_text _ _ "rabbit_host" (VStr "localhost")),
      (resolved_text _ _ "rabbit_user" (VStr "guest")),
      (resolved_text _ _ "rabbit_pass" (VStr "guest")),
      (resolved_text _ _ "rabbit_vhost" (VStr "/"))
      by in_keys.
    rewrite Hh, Hu, Hp, Hv. repeat split; reflexivity.
Qed.

(** X4.  Resolution reads the nine options of the one section and nothing
    else: two configurations (or sections) that answer those nine lookups
    alike resolve alike. *)
Theorem resolution_reads_profile_keys (c1 c2 : ConfigParser) (s1 s2 : string) :
  (forall k, In k profile_keys -> get c1 s1 k = get c2 s2 k) ->
  get_connection_info c1 s1 = get_connection_info c2 s2.
Proof.
  intros H. unfold get_connection_info.
  rewrite (H "rabbit_host"), (H "rabbit_user"), (H "rabbit_pass"), (H "rabbit_vhost"),
    (H "rabbit_port"), (H "rabbit_queue"), (H "rabbit_exchange"),
    (H "rabbit_routing_key"), (H "rabbit_message_body")
    by in_keys.
  reflexivity.
Qed.

(* ===================================================================== *)
(** ** Further properties of runs *)
(* ===================================================================== *)

(** A run whose configuration file cannot be loaded. *)
Lemma main_not_loaded (args : Args) (e : exn) (tr : list event) :
  open_readfp (CONF_FILE args) = Raise e ->
  main args tr =
  match e with
  | IOError =>
      (Raise (SystemExit (VStr ("Please create " +:+ CONF_FILE args +:+ " "))),
       (tr ++ [Print "Config file missing."])%list)
  | _ => (Raise e, tr)
  end.
Proof. intros H. unfold_run. rewrite H. destruct e; reflexivity. Qed.

(** The lookups of a resolved dictionary, read back from the
    configuration. *)
Lemma dict_get_resolved_text (cfg : ConfigParser) (service_name k : string)
  (absent : value) :
  In (k, absent) text_options ->
  dict_get (resolved cfg service_name) k = text_of (get cfg service_name k) absent.
Proof. intros H. unfold dict_get. rewrite (resolved_text _ _ _ _ H). reflexivity. Qed.

(** X5.  [connect_to_bus] on a resolved dictionary makes one call, with
    the host, virtual host, user and password of the configuration, each
    replaced by its default when absent, and the port [int] read, [5672]
    when absent. *)
Theorem connect_uses_resolved_options (cfg : ConfigParser) (service_name : string)
  (d : gmap string value) (tr : list event) :
  get_connection_info cfg service_name = Return d ->
  let opt k absent := text_of (get cfg service_name k) absent in
  let host := opt "rabbit_host" (VStr "localhost") in
  let vhost := opt "rabbit_vhost" (VStr "/") in
  let user := opt "rabbit_user" (VStr "guest") in
  let passwd := opt "rabbit_pass" (VStr "guest") in
  let port := port_of (get cfg service_name "rabbit_port") in
  connect_to_bus d tr =
  call (BlockingConnection host vhost user passwd port)
       (on_connect pika host vhost user passwd port) TheConnection tr.
Proof.
  intros Hr. apply get_connection_info_sound in Hr as (_ & _ & ->).
  cbv zeta. unfold connect_to_bus.
  rewrite (dict_get_resolved_text _ _ "rabbit_host" (VStr "localhost")),
    (dict_get_resolved_text _ _ "rabbit_user" (VStr "guest")),
    (dict_get_resolved_text _ _ "rabbit_pass" (VStr "guest")),
    (dict_get_resolved_text _ _ "rabbit_vhost" (VStr "/"))
    by in_keys.
  unfold dict_get at 1 2. rewrite resolved_port. reflexivity.
Qed.

(** X6.  The calls of a run come in one order and at most once each:
    the trace of any run is a prefix either of the one line printed for a
    missing file, or of connect, channel, publish, close, where the
    publish goes to the default exchange with the resolved queue as
    routing key. *)
Theorem run_trace_is_prefix (args : Args) (out : result unit) (tr : list event) :
  main args [] = (out, tr) ->
  tr `prefix_of` [Print "Config file missing."]
  \/ exists cfg d b,
       open_readfp (CONF_FILE args) = Return cfg
       /\ get_connection_info cfg (service args) = Return d
       /\ tr `prefix_of` [connect_event d; Channel;
                          BasicPublish "" (dict_get d "rabbit_queue") b; Close].
Proof.
  destruct (open_readfp (CONF_FILE args)) as [cfg|e] eqn:Hc.
  - destruct (get_connection_info cfg (service args)) as [d|e] eqn:Hr.
    + rewrite (main_resolved _ _ _ _ Hc Hr), session_eq. cbv zeta.
      intros H. right. exists cfg, d.
      destruct (connect_answer d); [|destruct (on_channel pika);
        [|destruct (basic args);
          [destruct (msg_body_of d) as [b|e];
           [destruct (on_basic_publish pika "" (dict_get d "rabbit_queue") b);
            [|destruct (on_close pika)]|]|]]];
        injection H as <- <-;
        first [ exists b | exists VNone ];
        (split; [reflexivity|]); (split; [exact Hr|]);
        simpl; eexists; reflexivity.
    + rewrite (main_unresolved _ _ _ _ Hc Hr). intros [= <- <-].
      left. eexists; reflexivity.
  - rewrite (main_not_loaded _ _ _ Hc). intros H. left.
    destruct e; injection H as <- <-; eexists; reflexivity.
Qed.

(** X7.  A run returns normally only without [-b], and then after
    exactly the connection and the channel; in basic-publish mode every
    run ends with an exception, the [SystemExit] of [exit()] at best. *)
Theorem normal_return_only_without_basic (args : Args) (tr : list event) :
  main args [] = (Return tt, tr) ->
  basic args = false
  /\ exists cfg d,
       open_readfp (CONF_FILE args) = Return cfg
       /\ get_connection_info cfg (service args) = Return d
       /\ connect_answer d = None /\ on_channel pika = None
       /\ tr = [connect_event d; Channel].
Proof.
  destruct (open_readfp (CONF_FILE args)) as [cfg|e] eqn:Hc.
  - destruct (get_connection_info cfg (service args)) as [d|e] eqn:Hr.
    + rewrite (main_resolved _ _ _ _ Hc Hr), session_eq. cbv zeta.
      destruct (connect_answer d) eqn:Ha; [discriminate|].
      destruct (on_channel pika) eqn:Hch; [discriminate|].
      destruct (basic args).
      * destruct (msg_body_of d) as [b|e]; [|discriminate].
        destruct (on_basic_publish pika "" (dict_get d "rabbit_queue") b);
          [discriminate|].
        destruct (on_close pika); discriminate.
      * intros [= <-]. split; [reflexivity|]. exists cfg, d. auto.
    + rewrite (main_unresolved _ _ _ _ Hc Hr). discriminate.
  - rewrite (main_not_loaded _ _ _ Hc). destruct e; discriminate.
Qed.

(** X8.  The successful basic publish, for any profile: when the profile
    resolves, the body evaluates (and serializes, if it is a dictionary)
    and the broker accepts the four calls, the run is connect, channel,
    one publish of the payload to the resolved queue, close, and it ends
    with the [SystemExit] of [exit()]. *)
Theorem basic_publish_succeeds (args : Args) (cfg : ConfigParser)
  (d : gmap string value) (raw : string) (v b : value) :
  basic args = true ->
  open_readfp (CONF_FILE args) = Return cfg ->
  get_connection_info cfg (service args) = Return d ->
  get cfg (service args) "rabbit_message_body" = Return raw ->
  literal_eval raw = Return v ->
  (if type_is_dict v then VStr <$> json_dumps v else Return v) = Return b ->
  connect_answer d = None ->
  on_channel pika = None ->
  on_basic_publish pika "" (dict_get d "rabbit_queue") b = None ->
  on_close pika = None ->
  main args [] =
  (Raise (SystemExit VNone),
   [connect_event d; Channel; BasicPublish "" (dict_get d "rabbit_queue") b; Close]).
Proof.
  intros Hb Hc Hr Hraw Hv Hpay Hconn Hchan Hpub Hclose.
  assert (Hm : msg_body_of d = Return b).
  { unfold msg_body_of. rewrite (resolved_body_text _ _ _ _ Hr Hraw). simpl.
    rewrite Hv. exact Hpay. }
  rewrite (main_resolved _ _ _ _ Hc Hr), session_eq, Hb, Hconn, Hchan, Hm.
  cbv zeta. rewrite Hpub, Hclose. reflexivity.
Qed.

(** X9.  Whatever the broker does, a publish call of a run is made in
    basic-publish mode only, to the default exchange, with the text of
    [rabbit_queue] as routing key ([None] when the key is absent) and the
    payload computed from the resolved body. *)
Theorem publish_goes_to_resolved_queue (args : Args) (out : result unit)
  (tr : list event) (exchange : string) (routing_key body : value) :
  main args [] = (out, tr) ->
  In (BasicPublish exchange routing_key body) tr ->
  basic args = true /\ exchange = ""
  /\ exists cfg,
       open_readfp (CONF_FILE args) = Return cfg
       /\ routing_key = text_of (get cfg (service args) "rabbit_queue") VNone
       /\ msg_body_of (resolved cfg (service args)) = Return body.
Proof.
  destruct (open_readfp (CONF_FILE args)) as [cfg|e] eqn:Hc.
  - destruct (get_connection_info cfg (service args)) as [d|e] eqn:Hr.
    + rewrite (main_resolved _ _ _ _ Hc Hr), session_eq.
      apply get_connection_info_sound in Hr as (_ & _ & ->).
      rewrite (dict_get_resolved_text _ _ "rabbit_queue" VNone)
        by in_keys.
      unfold connect_event; cbv zeta.
      destruct (connect_answer _); [|destruct (on_channel pika);
        [|destruct (basic args);
          [destruct (msg_body_of _) as [b|e] eqn:Hm;
           [destruct (on_basic_publish pika "" _ b);
            [|destruct (on_close pika)]|]|]]];
        intros [= <- <-] Hin; simpl in Hin;
        repeat destruct Hin as [Hin|Hin]; try discriminate; try (destruct Hin; fail);
        injection Hin as <- <- <-; repeat split; exists cfg; auto.
    + rewrite (main_unresolved _ _ _ _ Hc Hr). intros [= <- <-] [].
  - rewrite (main_not_loaded _ _ _ Hc).
    destruct e; intros [= <- <-] Hin; simpl in Hin;
      repeat destruct Hin as [Hin|Hin]; try discriminate; destruct Hin.
Qed.

(** X10.  A dictionary body that [json.dumps] cannot serialize is not
    published: [publish_basic] raises the exception of [json.dumps] and
    makes no call. *)
Theorem unserializable_body_not_published (chan : channel) (ci : gmap string value)
  (raw : string) (v : value) (e : exn) (tr : list event) :
  ci !! "rabbit_message_body" = Some (VStr raw) ->
  literal_eval raw = Return v ->
  type_is_dict v = true ->
  json_dumps v = Raise e ->
  publish_basic chan ci tr = (Raise e, tr).
Proof.
  intros Hraw Hv Hd Hj. rewrite publish_basic_eq.
  unfold msg_body_of, dict_get. rewrite Hraw. simpl. rewrite Hv. simpl.
  rewrite Hd, Hj. reflexivity.
Qed.

(** X11.  On a dictionary without a body -- no [rabbit_message_body] key,
    or a value there that is not a string -- [publish_basic] raises
    [ValueError] and makes no call: the literal is evaluated before the
    channel is used. *)
Theorem publish_basic_without_body (chan : channel) (ci : gmap string value)
  (tr : list event) :
  (forall raw, ci !! "rabbit_message_body" <> Some (VStr raw)) ->
  publish_basic chan ci tr = (Raise ValueError, tr).
Proof.
  intros H. rewrite publish_basic_eq. unfold msg_body_of, dict_get.
  destruct (ci !! "rabbit_message_body") as [[| | |raw| | |]|] eqn:E;
    try reflexivity.
  destruct (H raw). reflexivity.
Qed.

(** X12.  The script prints in one case only: a run prints a line exactly
    when opening or reading the configuration file raises [IOError]. *)
Theorem prints_only_when_file_missing (args : Args) (out : result unit)
  (tr : list event) :
  main args [] = (out, tr) ->
  (exists line, In (Print line) tr) <-> open_readfp (CONF_FILE args) = Raise IOError.
Proof.
  destruct (open_readfp (CONF_FILE args)) as [cfg|e] eqn:Hc.
  - destruct (get_connection_info cfg (service args)) as [d|e] eqn:Hr.
    + rewrite (main_resolved _ _ _ _ Hc Hr), session_eq.
      unfold connect_event; cbv zeta.
      destruct (connect_answer _); [|destruct (on_channel pika);
        [|destruct (basic args);
          [destruct (msg_body_of _) as [b|e];
           [destruct (on_basic_publish pika "" _ b);
            [|destruct (on_close pika)]|]|]]];
        intros [= <- <-]; (split; [|discriminate]);
        intros [line Hin]; simpl in Hin;
        repeat destruct Hin as [Hin|Hin]; try discriminate; destruct Hin.
    + rewrite (main_unresolved _ _ _ _ Hc Hr). intros [= <- <-].
      split; [intros [line []]|discriminate].
  - rewrite (main_not_loaded _ _ _ Hc).
    destruct e; intros [= <- <-];
      try (split; [intros [line []]|discriminate]).
    split; [reflexivity|]. intros _. eexists. simpl. left. reflexivity.
Qed.

(** X13.  When the configuration file cannot be opened the run prints
    [Config file missing.] and exits with [Please create] and the path it
    tried, without any call to the broker; any other exception of the
    load ends the run as it is, with nothing printed. *)
Theorem config_file_not_loaded (args : Args) (e : exn) :
  open_readfp (CONF_FILE args) = Raise e ->
  (e = IOError ->
   main args [] =
   (Raise (SystemExit (VStr ("Please create " +:+ CONF_FILE args +:+ " "))),
    [Print "Config file missing."]))
  /\ (e <> IOError -> main args [] = (Raise e, [])).
Proof.
  intros Hc. rewrite (main_not_loaded _ _ _ Hc). split.
  - intros ->. reflexivity.
  - intros Hne. destruct e; try reflexivity. contradiction.
Qed.

(** X14.  Without a usable [-f] (none, or the empty string) and without
    [PCOPS_PRIV] in the environment, the script looks for the file
    [None/rvi-jeeves.conf]: the unset variable is turned into the text
    [None]. *)
Theorem conf_file_without_env (args : Args) :
  configfile args = None \/ configfile args = Some "" ->
  getenv "PCOPS_PRIV" = None ->
  CONF_FILE args = "None/rvi-jeeves.conf"
  /\ (open_readfp "None/rvi-jeeves.conf" = Raise IOError ->
      main args [] =
      (Raise (SystemExit (VStr "Please create None/rvi-jeeves.conf ")),
       [Print "Config file missing."])).
Proof.
  intros Hf He.
  assert (Hp : CONF_FILE args = "None/rvi-jeeves.conf").
  { unfold CONF_FILE, str_getenv. rewrite He. destruct Hf as [->| ->]; reflexivity. }
  split; [exact Hp|].
  intros Hc. rewrite <- Hp in Hc. rewrite (main_not_loaded _ _ _ Hc), Hp.
  reflexivity.
Qed.

End Script.

(* ===================================================================== *)
(** ** Options that a run does not use *)
(* ===================================================================== *)

Lemma dict_get_resolved_agree (c1 c2 : ConfigParser) (s k : string) :
  In k used_keys ->
  get c1 s k = get c2 s k ->
  dict_get (resolved c1 s) k = dict_get (resolved c2 s) k.
Proof.
  unfold used_keys. simpl. intros Hk E.
  repeat destruct Hk as [Hk|Hk]; try (destruct Hk; fail); subst k;
    unfold dict_get;
    first
      [ rewrite !resolved_port, E; reflexivity
      | rewrite !resolved_body, E; reflexivity
      | rewrite !(resolved_text _ _ _ (VStr "localhost")), E
          by (unfold text_options; simpl; tauto); reflexivity
      | rewrite !(resolved_text _ _ _ (VStr "guest")), E
          by (unfold text_options; simpl; tauto); reflexivity
      | rewrite !(resolved_text _ _ _ (VStr "/")), E
          by (unfold text_options; simpl; tauto); reflexivity
      | rewrite !(resolved_text _ _ _ VNone), E
          by (unfold text_options; simpl; tauto); reflexivity ].
Qed.

(** X15.  [rabbit_exchange] and [rabbit_routing_key] are resolved and
    never used: two configuration files whose profiles differ in these
    two options only (their optional lookups being values or absences)
    give the same run, call for call. *)
Theorem exchange_and_routing_key_unused
  (literal_eval : string -> result value) (json_dumps : value -> result string)
  (pika : Broker) (getenv : string -> option string)
  (files1 files2 : string -> result ConfigParser)
  (args : Args) (cfg1 cfg2 : ConfigParser) :
  files1 (CONF_FILE getenv args) = Return cfg1 ->
  files2 (CONF_FILE getenv args) = Return cfg2 ->
  options_ok cfg1 (service args) ->
  options_ok cfg2 (service args) ->
  (forall k, In k used_keys -> get cfg1 (service args) k = get cfg2 (service args) k) ->
  main literal_eval json_dumps pika getenv files1 args []
  = main literal_eval json_dumps pika getenv files2 args [].
Proof.
  intros H1 H2 Hok1 Hok2 Hsame.
  pose proof (get_connection_info_options_ok _ _ Hok1) as Hr1.
  pose proof (get_connection_info_options_ok _ _ Hok2) as Hr2.
  rewrite (Hsame "rabbit_message_body") in Hr1 by (unfold used_keys; simpl; tauto).
  destruct (get cfg2 (service args) "rabbit_message_body") as [body|e].
  - rewrite (main_resolved _ _ _ _ _ _ _ _ _ H1 Hr1),
      (main_resolved _ _ _ _ _ _ _ _ _ H2 Hr2), !session_eq.
    unfold connect_event, connect_answer, msg_body_of.
    rewrite !(dict_get_resolved_agree cfg1 cfg2 (service args))
      by (first [apply Hsame|idtac]; unfold used_keys; simpl; tauto).
    reflexivity.
  - assert (exists e', get_connection_info cfg1 (service args) = Raise e'
                       /\ get_connection_info cfg2 (service args) = Raise e')
      as (e' & E1 & E2) by (destruct e; eauto).
    rewrite (main_unresolved _ _ _ _ _ _ _ _ _ H1 E1),
      (main_unresolved _ _ _ _ _ _ _ _ _ H2 E2).
    reflexivity.
Qed.

(* ===================================================================== *)
(** ** The script on the sample profiles *)
(* ===================================================================== *)

(** A run of the script on the model of the libraries: the file system
    holds [files], no environment variable is set and the broker accepts
    every call. *)
Abbreviation run_model files args :=
  (main PyModel.literal_eval PyModel.json_dumps PyModel.willing PyModel.no_env
        (PyModel.open_readfp files) args []).

Abbreviation local_connection :=
  (BlockingConnection (VStr "localhost") (VStr "/") (VStr "guest") (VStr "guest")
     (VInt 5672)).

Local Open Scope nat_scope.

(** *** Resolution *)

Lemma defaults_resolved_witness :
  get_connection_info (Samples.profile (Samples.only_body "'ping'")) "vConsuela"
  = Return (default_profile "'ping'").
Proof.
  apply defaults_resolved; [|reflexivity].
  unfold optional_keys, text_options; simpl.
  repeat (apply List.Forall_cons; [reflexivity|]). apply List.Forall_nil.
Defined.

Lemma missing_body_is_fatal_witness :
  exists e,
    get_connection_info (Samples.profile Samples.no_body) "vConsuela" = Raise e
    /\ run_model (Samples.file_of Samples.no_body) Samples.args_basic = (Raise e, []).
Proof.
  exact (proj1 (missing_body_is_fatal PyModel.literal_eval PyModel.json_dumps
                  PyModel.willing PyModel.no_env
                  (PyModel.open_readfp (Samples.file_of Samples.no_body))
                  Samples.args_basic (Samples.profile Samples.no_body)
                  eq_refl eq_refl)).
Defined.

Lemma bad_port_is_error_witness :
  get_connection_info (Samples.profile (Samples.with_port "abc")) "vConsuela"
  = Raise ValueError.
Proof.
  apply (bad_port_is_error (Samples.profile (Samples.with_port "abc")) "vConsuela" "abc");
    [reflexivity|reflexivity|].
  repeat (apply List.Forall_cons; [left; reflexivity|]). apply List.Forall_nil.
Defined.

(** C9, as the specification states it, fails for [rabbit_port]: it is an
    optional key, and with the empty string as its value the profile does
    not resolve at all; and blanks around a port are not kept. *)
Lemma empty_port_rejected :
  In "rabbit_port" optional_keys
  /\ get (Samples.profile (Samples.with_port "")) "vConsuela" "rabbit_port" = Return ""
  /\ get_connection_info (Samples.profile (Samples.with_port "")) "vConsuela"
     = Raise ValueError
  /\ exists d,
       get_connection_info (Samples.profile (Samples.with_port " 5672 ")) "vConsuela"
       = Return d
       /\ d !! "rabbit_port" = Some (VInt 5672).
Proof.
  split; [unfold optional_keys, text_options; simpl; tauto|].
  split; [reflexivity|]. split; [reflexivity|].
  eexists. split; reflexivity.
Qed.

Lemma text_options_verbatim_witness :
  exists d,
    get_connection_info (Samples.profile Samples.empty_queue) "vConsuela" = Return d
    /\ d !! "rabbit_queue" = Some (VStr "")
    /\ d !! "rabbit_host" = Some (VStr " bus ")
    /\ d !! "rabbit_exchange" = Some VNone.
Proof.
  destruct (text_options_verbatim (Samples.profile Samples.empty_queue) "vConsuela" "'ping'")
    as (d & Hd & Htext & _).
  - split; [|left; reflexivity].
    unfold text_options.
    repeat (apply List.Forall_cons;
            [first [left; reflexivity | right; eexists; reflexivity]|]).
    apply List.Forall_nil.
  - reflexivity.
  - exists d. split; [exact Hd|].
    split; [|split].
    + apply (Htext "rabbit_queue" VNone); [unfold text_options; simpl; tauto|reflexivity].
    + apply (Htext "rabbit_host" (VStr "localhost"));
        [unfold text_options; simpl; tauto|reflexivity].
    + apply (Htext "rabbit_exchange" VNone); [unfold text_options; simpl; tauto|reflexivity].
Defined.

(** *** The payload *)

(** C3, as the specification states it, fails for a number: the body of
    the publish call for the literal [42] is the integer, not the text
    made of the digits. *)
Lemma number_body_is_not_text :
  PyModel.literal_eval "42" = Return (VInt 42)
  /\ publish_basic PyModel.literal_eval PyModel.json_dumps PyModel.willing
       TheChannel (default_profile "42") []
     = (Return tt, [BasicPublish "" VNone (VInt 42)])
  /\ VInt 42 <> VStr "42".
Proof. split; [reflexivity|]. split; [reflexivity|discriminate]. Qed.

Lemma publish_basic_body_witness :
  publish_basic PyModel.literal_eval PyModel.json_dumps PyModel.willing
    TheChannel (default_profile "{'a': 1}") []
  = (Return tt, [BasicPublish "" VNone (VStr ("{" +:+ PyModel.quoted "a" +:+ ": 1}"))])
  /\ publish_basic PyModel.literal_eval PyModel.json_dumps PyModel.willing
       TheChannel (default_profile "'hello'") []
     = (Return tt, [BasicPublish "" VNone (VStr "hello")]).
Proof.
  split.
  - apply (proj1 (publish_basic_body PyModel.literal_eval PyModel.json_dumps
                    PyModel.willing TheChannel (default_profile "{'a': 1}")
                    "{'a': 1}" (VDict [(VStr "a", VInt 1%Z)]) [] eq_refl eq_refl));
      reflexivity.
  - apply (proj2 (publish_basic_body PyModel.literal_eval PyModel.json_dumps
                    PyModel.willing TheChannel (default_profile "'hello'")
                    "'hello'" (VStr "hello") [] eq_refl eq_refl));
      reflexivity.
Defined.

(** *** Runs *)

(** C1, as the specification states it, fails: with [import os] as body
    the run does end with the exception of the evaluator, but after the
    connection was opened. *)
Lemma malformed_body_connects :
  run_model (Samples.file_of (Samples.only_body "import os")) Samples.args_basic
  = (Raise SyntaxError, [local_connection; Channel])
  /\ count is_connect
       (run_model (Samples.file_of (Samples.only_body "import os")) Samples.args_basic).2
     = 1.
Proof. split; reflexivity. Qed.

Lemma malformed_body_fails_after_connect_witness :
  run_model (Samples.file_of (Samples.only_body "{'a': 1")) Samples.args_basic
  = (Raise SyntaxError, [local_connection; Channel]).
Proof.
  exact (proj2 (malformed_body_fails_after_connect PyModel.literal_eval
                  PyModel.json_dumps PyModel.willing PyModel.no_env
                  (PyModel.open_readfp (Samples.file_of (Samples.only_body "{'a': 1")))
                  Samples.args_basic (Samples.profile (Samples.only_body "{'a': 1"))
                  (default_profile "{'a': 1") "{'a': 1" SyntaxError
                  eq_refl eq_refl eq_refl eq_refl eq_refl) eq_refl eq_refl).
Defined.

(** C2, as the specification states it, fails: without [rabbit_queue] the
    run in basic-publish mode raises no configuration error; it connects
    and publishes with [None] as routing key. *)
Lemma missing_queue_connects :
  get (Samples.profile (Samples.only_body "'x'")) "vConsuela" "rabbit_queue"
  = Raise NoOptionError
  /\ run_model (Samples.file_of (Samples.only_body "'x'")) Samples.args_basic
     = (Raise (SystemExit VNone),
        [local_connection; Channel; BasicPublish "" VNone (VStr "x"); Close]).
Proof. split; reflexivity. Qed.

Lemma missing_queue_publishes_unset_key_witness :
  In (BasicPublish "" VNone (VStr "ping"))
     (run_model (Samples.file_of (Samples.only_body "'ping'")) Samples.args_basic).2.
Proof.
  exact (proj2 (proj2 (missing_queue_publishes_unset_key PyModel.literal_eval
                  PyModel.json_dumps PyModel.willing PyModel.no_env
                  (PyModel.open_readfp (Samples.file_of (Samples.only_body "'ping'")))
                  Samples.args_basic (Samples.profile (Samples.only_body "'ping'"))
                  (default_profile "'ping'") eq_refl eq_refl eq_refl eq_refl))
               (VStr "ping") eq_refl eq_refl eq_refl).
Defined.

Lemma jobs_scenario_witness :
  run_model (Samples.file_of Samples.jobs) Samples.args_basic
  = (Raise (SystemExit VNone),
     [local_connection; Channel;
      BasicPublish "" (VStr "jobs") (VStr Samples.task_sync_json); Close]).
Proof.
  apply (jobs_scenario PyModel.literal_eval PyModel.json_dumps PyModel.willing
           PyModel.no_env (PyModel.open_readfp (Samples.file_of Samples.jobs))
           Samples.args_basic (Samples.profile Samples.jobs));
    try reflexivity.
  repeat (apply List.Forall_cons; [reflexivity|]). apply List.Forall_nil.
Defined.

(** C8, as the specification states it, fails: a run without [-b] opens
    the connection and ends without closing it, and so does a
    basic-publish run whose body does not evaluate. *)
Lemma connection_left_open :
  run_model (Samples.file_of Samples.jobs) Samples.args_plain
  = (Return tt, [local_connection; Channel])
  /\ count is_close (run_model (Samples.file_of Samples.jobs) Samples.args_plain).2 = 0
  /\ count is_connect
       (run_model (Samples.file_of (Samples.only_body "{")) Samples.args_basic).2 = 1
  /\ count is_close
       (run_model (Samples.file_of (Samples.only_body "{")) Samples.args_basic).2 = 0.
Proof. repeat split; reflexivity. Qed.

Lemma close_iff_published_witness :
  In Close (run_model (Samples.file_of Samples.jobs) Samples.args_basic).2.
Proof.
  apply (proj2 (close_iff_published PyModel.literal_eval PyModel.json_dumps
                  PyModel.willing PyModel.no_env
                  (PyModel.open_readfp (Samples.file_of Samples.jobs))
                  Samples.args_basic _ _ eq_refl)).
  split; [reflexivity|].
  exists (VStr "jobs"), (VStr Samples.task_sync_json).
  split; [simpl; tauto|reflexivity].
Defined.

Lemma no_basic_flag_no_publish_witness :
  run_model (Samples.file_of (Samples.only_body "'ping'")) Samples.args_plain
  = (Return tt, [local_connection; Channel]).
Proof.
  exact (proj2 (no_basic_flag_no_publish PyModel.literal_eval PyModel.json_dumps
                  PyModel.willing PyModel.no_env
                  (PyModel.open_readfp (Samples.file_of (Samples.only_body "'ping'")))
                  Samples.args_plain eq_refl)
               (Samples.profile (Samples.only_body "'ping'")) (default_profile "'ping'")
               eq_refl eq_refl eq_refl eq_refl).
Defined.

(** *** Further properties, on the sample profiles *)

Lemma foreign_lookup_error_propagates_witness :
  get_connection_info (Samples.profile Samples.jobs) "nobody" = Raise NoSectionError.
Proof.
  apply (foreign_lookup_error_propagates (Samples.profile Samples.jobs) "nobody"
           "rabbit_host" NoSectionError);
    [unfold profile_keys; simpl; tauto | reflexivity | discriminate | reflexivity].
Defined.

Lemma resolved_profile_complete_witness :
  dom (default_profile "'ping'") = list_to_set profile_keys.
Proof.
  exact (proj1 (resolved_profile_complete
                  (Samples.profile (Samples.only_body "'ping'")) "vConsuela"
                  (default_profile "'ping'") eq_refl)).
Defined.

Lemma resolution_reads_profile_keys_witness :
  get_connection_info (Samples.profile Samples.jobs) "vConsuela"
  = get_connection_info
      (PyModel.config_of {[ "other" := <["note" := "nightly"]> Samples.jobs ]}) "other".
Proof.
  apply resolution_reads_profile_keys.
  intros k Hk. unfold profile_keys in Hk. simpl in Hk.
  repeat destruct Hk as [Hk|Hk]; try (destruct Hk; fail); subst k; reflexivity.
Defined.

Lemma connect_uses_resolved_options_witness :
  connect_to_bus PyModel.willing (default_profile "'ping'") []
  = (Return TheConnection, [local_connection]).
Proof.
  exact (connect_uses_resolved_options PyModel.willing
           (Samples.profile (Samples.only_body "'ping'")) "vConsuela"
           (default_profile "'ping'") [] eq_refl).
Defined.

Lemma run_trace_is_prefix_witness :
  [local_connection; Channel] `prefix_of` [Print "Config file missing."]
  \/ exists cfg d b,
       PyModel.open_readfp (Samples.file_of (Samples.only_body "import os"))
         (CONF_FILE PyModel.no_env Samples.args_basic) = Return cfg
       /\ get_connection_info cfg "vConsuela" = Return d
       /\ [local_connection; Channel] `prefix_of`
            [connect_event d; Channel; BasicPublish "" (dict_get d "rabbit_queue") b; Close].
Proof.
  exact (run_trace_is_prefix PyModel.literal_eval PyModel.json_dumps PyModel.willing
           PyModel.no_env
           (PyModel.open_readfp (Samples.file_of (Samples.only_body "import os")))
           Samples.args_basic (Raise SyntaxError) [local_connection; Channel] eq_refl).
Defined.

Lemma normal_return_only_without_basic_witness :
  basic Samples.args_plain = false
  /\ exists cfg d,
       PyModel.open_readfp (Samples.file_of Samples.jobs)
         (CONF_FILE PyModel.no_env Samples.args_plain) = Return cfg
       /\ get_connection_info cfg "vConsuela" = Return d
       /\ connect_answer PyModel.willing d = None
       /\ on_channel PyModel.willing = None
       /\ [local_connection; Channel] = [connect_event d; Channel].
Proof.
  exact (normal_return_only_without_basic PyModel.literal_eval PyModel.json_dumps
           PyModel.willing PyModel.no_env
           (PyModel.open_readfp (Samples.file_of Samples.jobs))
           Samples.args_plain [local_connection; Channel] eq_refl).
Defined.

Lemma basic_publish_succeeds_witness :
  run_model
    (Samples.file_of {[ "rabbit_queue" := "jobs"; "rabbit_message_body" := "[1, 'a']" ]})
    Samples.args_basic
  = (Raise (SystemExit VNone),
     [local_connection; Channel;
      BasicPublish "" (VStr "jobs") (VList [VInt 1%Z; VStr "a"]); Close]).
Proof.
  exact (basic_publish_succeeds PyModel.literal_eval PyModel.json_dumps PyModel.willing
           PyModel.no_env
           (PyModel.open_readfp
              (Samples.file_of
                 {[ "rabbit_queue" := "jobs"; "rabbit_message_body" := "[1, 'a']" ]}))
           Samples.args_basic
           (Samples.profile
              {[ "rabbit_queue" := "jobs"; "rabbit_message_body" := "[1, 'a']" ]})
           (<["rabbit_queue" := VStr "jobs"]> (default_profile "[1, 'a']"))
           "[1, 'a']" (VList [VInt 1%Z; VStr "a"]) (VList [VInt 1%Z; VStr "a"])
           eq_refl eq_refl eq_refl eq_refl eq_refl eq_refl eq_refl eq_refl eq_refl eq_refl).
Defined.

Lemma publish_goes_to_resolved_queue_witness :
  basic Samples.args_basic = true /\ "" = ""
  /\ exists cfg,
       PyModel.open_readfp (Samples.file_of Samples.jobs)
         (CONF_FILE PyModel.no_env Samples.args_basic) = Return cfg
       /\ VStr "jobs" = text_of (get cfg "vConsuela" "rabbit_queue") VNone
       /\ msg_body_of PyModel.literal_eval PyModel.json_dumps (resolved cfg "vConsuela")
          = Return (VStr Samples.task_sync_json).
Proof.
  apply (publish_goes_to_resolved_queue PyModel.literal_eval PyModel.json_dumps
           PyModel.willing PyModel.no_env
           (PyModel.open_readfp (Samples.file_of Samples.jobs))
           Samples.args_basic (Raise (SystemExit VNone))
           [local_connection; Channel;
            BasicPublish "" (VStr "jobs") (VStr Samples.task_sync_json); Close]);
    [reflexivity | simpl; tauto].
Defined.

(** [ast.literal_eval] on one more literal: a dictionary with the empty
    tuple as key, which [json.dumps] refuses. *)
Definition literal_eval_tuple_key (s : string) : result value :=
  if String.eqb s "{(): 1}" then Return (VDict [(VTuple [], VInt 1%Z)])
  else PyModel.literal_eval s.

Lemma unserializable_body_not_published_witness :
  publish_basic literal_eval_tuple_key PyModel.json_dumps PyModel.willing
    TheChannel (default_profile "{(): 1}") []
  = (Raise TypeError, []).
Proof.
  apply (unserializable_body_not_published literal_eval_tuple_key PyModel.json_dumps
           PyModel.willing TheChannel (default_profile "{(): 1}") "{(): 1}"
           (VDict [(VTuple [], VInt 1%Z)]) TypeError []);
    reflexivity.
Defined.

Lemma publish_basic_without_body_witness :
  publish_basic PyModel.literal_eval PyModel.json_dumps PyModel.willing
    TheChannel ∅ []
  = (Raise ValueError, []).
Proof.
  apply publish_basic_without_body. intros raw H. discriminate H.
Defined.

Lemma prints_only_when_file_missing_witness :
  (exists line, In (Print line) [Print "Config file missing."])
  <-> PyModel.open_readfp ∅ (CONF_FILE PyModel.no_env Samples.args_basic) = Raise IOError.
Proof.
  exact (prints_only_when_file_missing PyModel.literal_eval PyModel.json_dumps
           PyModel.willing PyModel.no_env (PyModel.open_readfp ∅) Samples.args_basic
           (Raise (SystemExit
                     (VStr "Please create /home/automation/staging/rvi-jeeves.conf ")))
           [Print "Config file missing."] eq_refl).
Defined.

Lemma config_file_not_loaded_witness :
  run_model ∅ Samples.args_basic
  = (Raise (SystemExit (VStr "Please create /home/automation/staging/rvi-jeeves.conf ")),
     [Print "Config file missing."]).
Proof.
  exact (proj1 (config_file_not_loaded PyModel.literal_eval PyModel.json_dumps
                  PyModel.willing PyModel.no_env (PyModel.open_readfp ∅)
                  Samples.args_basic IOError eq_refl) eq_refl).
Defined.

Lemma conf_file_without_env_witness :
  CONF_FILE PyModel.no_env {| service := "vConsuela"; configfile := None; basic := true |}
  = "None/rvi-jeeves.conf".
Proof.
  exact (proj1 (conf_file_without_env PyModel.literal_eval PyModel.json_dumps
                  PyModel.willing PyModel.no_env (PyModel.open_readfp ∅)
                  {| service := "vConsuela"; configfile := None; basic := true |}
                  (or_introl eq_refl) eq_refl)).
Defined.

Lemma exchange_and_routing_key_unused_witness :
  run_model (Samples.file_of Samples.jobs) Samples.args_basic
  = run_model
      (Samples.file_of
         (<["rabbit_exchange" := "amq.topic"]>
            (<["rabbit_routing_key" := "nightly"]> Samples.jobs)))
      Samples.args_basic.
Proof.
  apply (exchange_and_routing_key_unused PyModel.literal_eval PyModel.json_dumps
           PyModel.willing PyModel.no_env _ _ Samples.args_basic
           (Samples.profile Samples.jobs)
           (Samples.profile
              (<["rabbit_exchange" := "amq.topic"]>
                 (<["rabbit_routing_key" := "nightly"]> Samples.jobs))));
    try reflexivity.
  - split; [|left; reflexivity].
    unfold text_options.
    repeat (apply List.Forall_cons;
            [first [left; reflexivity | right; eexists; reflexivity]|]).
    apply List.Forall_nil.
  - split; [|left; reflexivity].
    unfold text_options.
    repeat (apply List.Forall_cons;
            [first [left; reflexivity | right; eexists; reflexivity]|]).
    apply List.Forall_nil.
  - intros k Hk. unfold used_keys in Hk. simpl in Hk.
    repeat destruct Hk as [Hk|Hk]; try (destruct Hk; fail); subst k; reflexivity.
Defined.
